(** * Power sequencing of the Sharp LS037V7DW06 panel driver

    A shallow embedding of [sharp_ls_enable] and [sharp_ls_disable] of
    [ls037v7dw06.c].  The two C functions are straight-line code with early
    returns; they act on the panel structure and, through its handles, on
    three GPIO lines, a regulator, an I2C client and a backlight device.

    The embedding keeps, next to the [enabled] flag, the state that is
    reachable through each handle (line levels, backlight properties) and a
    journal of every call made through a handle, in program order.  The
    return codes of the fallible kernel calls are supplied by an oracle. *)

From Stdlib Require Import String.
From Stdlib Require Import ZArith List Bool Lia.
Import ListNotations.
Local Open Scope Z_scope.

(** ** Constants *)

(** The four controller opcodes, as the source defines them (lines 33-36). *)
Definition LS037V7DW06_SLEEP_OFF : Z := 0x10.
Definition LS037V7DW06_SLEEP_ON  : Z := 0x11.
Definition LS037V7DW06_DISP_OFF  : Z := 0x28.
Definition LS037V7DW06_DISP_ON   : Z := 0x29.

(** Kernel constants used by the driver: [BL_CORE_FBBLANK] is [(1 << 1)] in
    [linux/backlight.h]; [FB_BLANK_UNBLANK] and [FB_BLANK_POWERDOWN] are
    [VESA_NO_BLANKING] and [VESA_POWERDOWN + 1] in [linux/fb.h]. *)
Definition BL_CORE_FBBLANK    : Z := Z.shiftl 1 1.
Definition FB_BLANK_UNBLANK   : Z := 0.
Definition FB_BLANK_POWERDOWN : Z := 4.

(** Conversion to [unsigned int], the type of [props.state]. *)
Definition to_uint (x : Z) : Z := x mod 2 ^ 32.

(** ** Data *)

(** The three GPIO descriptors held by the panel structure. *)
Inductive gpio : Type := RESB | CLK | I2CISO.

(** [struct backlight_properties], the fields the driver uses. *)
Record backlight_properties : Type := mk_props {
  brightness     : Z;
  max_brightness : Z;
  power          : Z;
  state          : Z
}.

Inductive bl_field : Type := PropState | PropPower | PropBrightness.

(** One entry of the journal per call made through a resource handle, and
    per store to a field of the backlight properties.  Fallible calls are
    recorded with the code they returned. *)
Inductive event : Type :=
| EvGpioSet (line : gpio) (value : Z)
| EvRegulatorEnable (ret : Z)
| EvRegulatorDisable (ret : Z)
| EvMsleep (msecs : Z)
| EvI2cWrite (command value ret : Z)
| EvBacklightStore (field : bl_field) (value : Z)
| EvBacklightUpdate (props : backlight_properties).

(** [struct panel_ls037v7dw06].  A handle field holds the state of the
    resource behind it: a line its level, the backlight its properties.
    [journal] is the record of the calls made so far, oldest first.  The
    backlight handle is taken to point to a device, as the sequences assume
    when they dereference it. *)
Record panel_ls037v7dw06 : Type := mk_panel {
  enabled     : bool;
  resb_gpio   : Z;
  clk_gpio    : Z;
  i2ciso_gpio : Z;
  backlight   : backlight_properties;
  journal     : list event
}.

(** The fallible kernel calls the driver makes. *)
Inductive call : Type :=
| CallRegulatorEnable
| CallRegulatorDisable
| CallI2cWrite (command value : Z).

(** The hardware's answers: the return code of a call, given everything
    that happened before it. *)
Definition oracle : Type := list event -> call -> Z.

(** ** Field updates *)

Definition set_enabled (b : bool) (p : panel_ls037v7dw06) : panel_ls037v7dw06 :=
  mk_panel b (resb_gpio p) (clk_gpio p) (i2ciso_gpio p) (backlight p) (journal p).

Definition set_line (line : gpio) (v : Z) (p : panel_ls037v7dw06) : panel_ls037v7dw06 :=
  match line with
  | RESB   => mk_panel (enabled p) v (clk_gpio p) (i2ciso_gpio p) (backlight p) (journal p)
  | CLK    => mk_panel (enabled p) (resb_gpio p) v (i2ciso_gpio p) (backlight p) (journal p)
  | I2CISO => mk_panel (enabled p) (resb_gpio p) (clk_gpio p) v (backlight p) (journal p)
  end.

Definition set_prop (f : bl_field) (v : Z) (b : backlight_properties) : backlight_properties :=
  match f with
  | PropState      => mk_props (brightness b) (max_brightness b) (power b) v
  | PropPower      => mk_props (brightness b) (max_brightness b) v (state b)
  | PropBrightness => mk_props v (max_brightness b) (power b) (state b)
  end.

Definition set_backlight (b : backlight_properties) (p : panel_ls037v7dw06) : panel_ls037v7dw06 :=
  mk_panel (enabled p) (resb_gpio p) (clk_gpio p) (i2ciso_gpio p) b (journal p).

Definition log_event (e : event) (p : panel_ls037v7dw06) : panel_ls037v7dw06 :=
  mk_panel (enabled p) (resb_gpio p) (clk_gpio p) (i2ciso_gpio p) (backlight p)
           (journal p ++ [e]).

(** ** Statements with early return *)

(** A statement either falls through to the next one with a value, or
    leaves the function with a return code.  The panel reached so far is
    kept in both cases: nothing is rolled back. *)
Inductive outcome (A : Type) : Type :=
| Next (a : A)
| Return (retval : Z).
Arguments Next {A} a.
Arguments Return {A} retval.

Definition stmt (A : Type) : Type := panel_ls037v7dw06 -> outcome A * panel_ls037v7dw06.

Definition skip {A : Type} (a : A) : stmt A := fun p => (Next a, p).

Definition seq {A B : Type} (s : stmt A) (k : A -> stmt B) : stmt B :=
  fun p =>
    match s p with
    | (Next a, p') => k a p'
    | (Return r, p') => (Return r, p')
    end.

Definition return_ {A : Type} (retval : Z) : stmt A := fun p => (Return retval, p).

(** [if (retval != 0) return retval;] *)
Definition return_if_nonzero (retval : Z) : stmt unit :=
  if retval =? 0 then skip tt else return_ retval.

(** Running a function body: the code it returned and the panel it left. *)
Definition body (s : stmt Z) (p : panel_ls037v7dw06) : Z * panel_ls037v7dw06 :=
  match s p with
  | (Next r, p') => (r, p')
  | (Return r, p') => (r, p')
  end.

Declare Scope stmt_scope.
Delimit Scope stmt_scope with stmt.
Notation "x <- s ;; k" := (seq s (fun x => k))
  (at level 61, s at next level, right associativity) : stmt_scope.
Notation "s ;; k" := (seq s (fun _ => k))
  (at level 61, right associativity) : stmt_scope.

(** ** The kernel interface *)

Section Driver.

Variable hw : oracle.

Definition gpiod_set_value_cansleep (line : gpio) (value : Z) : stmt unit :=
  fun p => (Next tt, log_event (EvGpioSet line value) (set_line line value p)).

Definition regulator_enable : stmt Z :=
  fun p =>
    let r := hw (journal p) CallRegulatorEnable in
    (Next r, log_event (EvRegulatorEnable r) p).

Definition regulator_disable : stmt Z :=
  fun p =>
    let r := hw (journal p) CallRegulatorDisable in
    (Next r, log_event (EvRegulatorDisable r) p).

Definition msleep (msecs : Z) : stmt unit :=
  fun p => (Next tt, log_event (EvMsleep msecs) p).

Definition i2c_smbus_write_byte_data (command value : Z) : stmt Z :=
  fun p =>
    let r := hw (journal p) (CallI2cWrite command value) in
    (Next r, log_event (EvI2cWrite command value r) p).

(** Reading and storing [panel->backlight->props.<field>]. *)
Definition props : stmt backlight_properties :=
  fun p => (Next (backlight p), p).

Definition store (f : bl_field) (v : Z) : stmt unit :=
  fun p => (Next tt, log_event (EvBacklightStore f v) (set_backlight (set_prop f v (backlight p)) p)).

(** The result of [backlight_update_status] is not looked at by the driver. *)
Definition backlight_update_status : stmt unit :=
  fun p => (Next tt, log_event (EvBacklightUpdate (backlight p)) p).

Definition assign_enabled (b : bool) : stmt unit :=
  fun p => (Next tt, set_enabled b p).

(** ** The two sequences *)

Local Open Scope stmt_scope.

Definition sharp_ls_enable_body : stmt Z :=
  (* Start by setting RESB to low. *)
  gpiod_set_value_cansleep RESB 0 ;;
  gpiod_set_value_cansleep I2CISO 0 ;;
  (* Enable VDD. *)
  retval <- regulator_enable ;;
  return_if_nonzero retval ;;
  (* Wait for the panel to power up. *)
  msleep 10 ;;
  (* Set RESB to high. *)
  gpiod_set_value_cansleep RESB 1 ;;
  (* Wait for the panel to act on the RESB state change. *)
  msleep 1 ;;
  (* Exit Sleep mode. *)
  retval <- i2c_smbus_write_byte_data LS037V7DW06_SLEEP_ON 0x00 ;;
  return_if_nonzero retval ;;
  (* Let the panel wake up. *)
  msleep 100 ;;
  (* Turn on the display. *)
  retval <- i2c_smbus_write_byte_data LS037V7DW06_DISP_ON 0x00 ;;
  return_if_nonzero retval ;;
  (* Start transmitting all signals. *)
  gpiod_set_value_cansleep CLK 1 ;;
  (* Turn on the backlight. *)
  b <- props ;;
  store PropState (Z.land (state b) (to_uint (Z.lnot BL_CORE_FBBLANK))) ;;
  store PropPower FB_BLANK_UNBLANK ;;
  b <- props ;;
  store PropBrightness (max_brightness b) ;;
  backlight_update_status ;;
  (* Mark the panel as enabled. *)
  assign_enabled true ;;
  return_ retval.

Definition sharp_ls_disable_body : stmt Z :=
  (* Turn off the backlight. *)
  store PropPower FB_BLANK_POWERDOWN ;;
  b <- props ;;
  store PropState (Z.lor (state b) BL_CORE_FBBLANK) ;;
  store PropBrightness 0 ;;
  backlight_update_status ;;
  (* Stop transmitting all signals. *)
  gpiod_set_value_cansleep CLK 0 ;;
  (* Wait 1ms before continuing. *)
  msleep 1 ;;
  (* Turn off the display. *)
  retval <- i2c_smbus_write_byte_data LS037V7DW06_DISP_OFF 0x00 ;;
  return_if_nonzero retval ;;
  (* Wait >1 frame period before continuing. *)
  msleep 20 ;;
  retval <- i2c_smbus_write_byte_data LS037V7DW06_SLEEP_OFF 0x00 ;;
  return_if_nonzero retval ;;
  (* Let the panel shut down. *)
  msleep 100 ;;
  (* Set RESB to low. *)
  gpiod_set_value_cansleep RESB 0 ;;
  (* Wait 1ms before continuing. *)
  msleep 1 ;;
  (* Disable VDD. *)
  retval <- regulator_disable ;;
  return_if_nonzero retval ;;
  return_ retval.

Definition sharp_ls_enable : panel_ls037v7dw06 -> Z * panel_ls037v7dw06 :=
  body sharp_ls_enable_body.

Definition sharp_ls_disable : panel_ls037v7dw06 -> Z * panel_ls037v7dw06 :=
  body sharp_ls_disable_body.

End Driver.

(** ** Observations *)

(** What a call added to the journal. *)
Definition emitted (p p' : panel_ls037v7dw06) : list event :=
  skipn (length (journal p)) (journal p').

(** The register writes among some events: address, value, return code. *)
Fixpoint i2c_writes (evs : list event) : list (Z * Z * Z) :=
  match evs with
  | [] => []
  | EvI2cWrite c v r :: rest => (c, v, r) :: i2c_writes rest
  | _ :: rest => i2c_writes rest
  end.

(** The register addresses written, in order. *)
Definition i2c_commands (evs : list event) : list Z :=
  map (fun w => fst (fst w)) (i2c_writes evs).

Definition drives (line : gpio) (e : event) : bool :=
  match e, line with
  | EvGpioSet RESB _, RESB => true
  | EvGpioSet CLK _, CLK => true
  | EvGpioSet I2CISO _, I2CISO => true
  | _, _ => false
  end.

Definition on_backlight (e : event) : bool :=
  match e with
  | EvBacklightStore _ _ | EvBacklightUpdate _ => true
  | _ => false
  end.

(** The driver keeps one flag.  Read as the sequencer's state it tells
    [Active] from [Inactive]; the structure has nothing that could stand
    for [Faulted]. *)
Inductive PanelState : Type := Inactive | Active | Faulted.

Definition panel_state (p : panel_ls037v7dw06) : PanelState :=
  if enabled p then Active else Inactive.

(** The blanking bit of [props.state]. *)
Definition blank_flag (st : Z) : bool := negb (Z.land st BL_CORE_FBBLANK =? 0).

(** ** The protocol of the specification *)

(** The sequencer's commands by name; each stands for the source's macro of
    the same name. *)
Inductive RegisterCommand : Type := SleepOn | SleepOff | DisplayOff | DisplayOn.

Definition opcode (c : RegisterCommand) : Z :=
  match c with
  | SleepOn    => LS037V7DW06_SLEEP_ON
  | SleepOff   => LS037V7DW06_SLEEP_OFF
  | DisplayOff => LS037V7DW06_DISP_OFF
  | DisplayOn  => LS037V7DW06_DISP_ON
  end.

(** The steps of the protocol as section 4.1 of the specification words
    them; a wait is given by its minimum. *)
Inductive step : Type :=
| DriveLow (line : gpio)
| DriveHigh (line : gpio)
| EnableSupply
| DisableSupply
| WaitAtLeast (ms : Z)
| WriteRegister (c : RegisterCommand)
| ClearBlankFlag
| SetBlankFlag
| PowerUnblanked
| PowerDown
| BrightnessMax
| BrightnessZero
| Apply.

(** Steps 1-11 of [activate] in the specification. *)
Definition activate_steps : list step :=
  [DriveLow RESB; DriveLow I2CISO; EnableSupply; WaitAtLeast 10;
   DriveHigh RESB; WaitAtLeast 1; WriteRegister SleepOn; WaitAtLeast 100;
   WriteRegister DisplayOn; DriveHigh CLK;
   ClearBlankFlag; PowerUnblanked; BrightnessMax; Apply].

(** Steps 1-10 of [deactivate] in the specification. *)
Definition deactivate_steps : list step :=
  [PowerDown; SetBlankFlag; BrightnessZero; Apply;
   DriveLow CLK; WaitAtLeast 1; WriteRegister DisplayOff; WaitAtLeast 20;
   WriteRegister SleepOff; WaitAtLeast 100; DriveLow RESB; WaitAtLeast 1;
   DisableSupply].

Definition gpio_eqb (a b : gpio) : bool :=
  match a, b with
  | RESB, RESB | CLK, CLK | I2CISO, I2CISO => true
  | _, _ => false
  end.

(** Whether a journal entry carries out a step; [max] is the backlight's
    maximum brightness.  A fallible step is carried out when its call
    returned 0, a wait when the sleep asked for is at least the minimum. *)
Definition performs (max : Z) (e : event) (s : step) : bool :=
  match s, e with
  | DriveLow l, EvGpioSet l' v => gpio_eqb l' l && (v =? 0)
  | DriveHigh l, EvGpioSet l' v => gpio_eqb l' l && (v =? 1)
  | EnableSupply, EvRegulatorEnable r => r =? 0
  | DisableSupply, EvRegulatorDisable r => r =? 0
  | WaitAtLeast ms, EvMsleep d => ms <=? d
  | WriteRegister c, EvI2cWrite a v r => (a =? opcode c) && (v =? 0) && (r =? 0)
  | ClearBlankFlag, EvBacklightStore PropState v => negb (blank_flag v)
  | SetBlankFlag, EvBacklightStore PropState v => blank_flag v
  | PowerUnblanked, EvBacklightStore PropPower v => v =? FB_BLANK_UNBLANK
  | PowerDown, EvBacklightStore PropPower v => v =? FB_BLANK_POWERDOWN
  | BrightnessMax, EvBacklightStore PropBrightness v => v =? max
  | BrightnessZero, EvBacklightStore PropBrightness v => v =? 0
  | Apply, EvBacklightUpdate _ => true
  | _, _ => false
  end.

(** The journal entries carry out the steps one for one, in order. *)
Fixpoint follows (max : Z) (evs : list event) (steps : list step) : bool :=
  match evs, steps with
  | [], [] => true
  | e :: evs', s :: steps' => performs max e s && follows max evs' steps'
  | _, _ => false
  end.

(** The sleeps asked for, in order. *)
Fixpoint msleeps (evs : list event) : list Z :=
  match evs with
  | [] => []
  | EvMsleep d :: rest => d :: msleeps rest
  | _ :: rest => msleeps rest
  end.

(** ** Concrete boards *)

(** A board on which every call succeeds. *)
Definition hw_ok : oracle := fun _ _ => 0.

(** A board whose regulator refuses to switch on ([-EIO]). *)
Definition hw_rail_dead : oracle :=
  fun _ c => match c with CallRegulatorEnable => -5 | _ => 0 end.

(** A board whose controller does not acknowledge a write to the given
    register ([-ENXIO]). *)
Definition hw_nak (command : Z) : oracle :=
  fun _ c => match c with
             | CallI2cWrite c' _ => if c' =? command then -6 else 0
             | _ => 0
             end.

(** The panel as [sharp_ls_probe] hands it to [sharp_ls_enable]: the flag
    cleared, the three lines requested low, nothing done yet. *)
Definition panel_probed : panel_ls037v7dw06 :=
  mk_panel false 0 0 0 (mk_props 0 255 FB_BLANK_POWERDOWN BL_CORE_FBBLANK) [].

(** The panel after a successful [sharp_ls_enable] on the probed one. *)
Definition panel_on : panel_ls037v7dw06 := snd (sharp_ls_enable hw_ok panel_probed).

(** ** The runs of the two functions *)

Definition backlight_on (b : backlight_properties) : backlight_properties :=
  mk_props (max_brightness b) (max_brightness b) FB_BLANK_UNBLANK
           (Z.land (state b) (to_uint (Z.lnot BL_CORE_FBBLANK))).

Definition backlight_off (b : backlight_properties) : backlight_properties :=
  mk_props 0 (max_brightness b) FB_BLANK_POWERDOWN (Z.lor (state b) BL_CORE_FBBLANK).

(** The events of [sharp_ls_enable] up to each of its exits. *)
Definition enable_to_rail (r : Z) : list event :=
  [EvGpioSet RESB 0; EvGpioSet I2CISO 0; EvRegulatorEnable r].

Definition enable_to_sleep (r : Z) : list event :=
  enable_to_rail 0 ++
  [EvMsleep 10; EvGpioSet RESB 1; EvMsleep 1; EvI2cWrite LS037V7DW06_SLEEP_ON 0 r].

Definition enable_to_disp (r : Z) : list event :=
  enable_to_sleep 0 ++ [EvMsleep 100; EvI2cWrite LS037V7DW06_DISP_ON 0 r].

Definition enable_to_end (b : backlight_properties) : list event :=
  enable_to_disp 0 ++
  [EvGpioSet CLK 1;
   EvBacklightStore PropState (state (backlight_on b));
   EvBacklightStore PropPower FB_BLANK_UNBLANK;
   EvBacklightStore PropBrightness (max_brightness b);
   EvBacklightUpdate (backlight_on b)].

(** The events of [sharp_ls_disable] up to each of its exits. *)
Definition disable_to_disp (b : backlight_properties) (r : Z) : list event :=
  [EvBacklightStore PropPower FB_BLANK_POWERDOWN;
   EvBacklightStore PropState (state (backlight_off b));
   EvBacklightStore PropBrightness 0;
   EvBacklightUpdate (backlight_off b);
   EvGpioSet CLK 0; EvMsleep 1; EvI2cWrite LS037V7DW06_DISP_OFF 0 r].

Definition disable_to_sleep (b : backlight_properties) (r : Z) : list event :=
  disable_to_disp b 0 ++ [EvMsleep 20; EvI2cWrite LS037V7DW06_SLEEP_OFF 0 r].

Definition disable_to_rail (b : backlight_properties) (r : Z) : list event :=
  disable_to_sleep b 0 ++
  [EvMsleep 100; EvGpioSet RESB 0; EvMsleep 1; EvRegulatorDisable r].

(** A call of [sharp_ls_enable] on [p] leaves by one of four exits. *)
Inductive enable_run (p : panel_ls037v7dw06) : Z -> panel_ls037v7dw06 -> Prop :=
| enable_rail_failed r :
    r <> 0 ->
    enable_run p r
      (mk_panel (enabled p) 0 (clk_gpio p) 0 (backlight p)
                (journal p ++ enable_to_rail r))
| enable_sleep_failed r :
    r <> 0 ->
    enable_run p r
      (mk_panel (enabled p) 1 (clk_gpio p) 0 (backlight p)
                (journal p ++ enable_to_sleep r))
| enable_disp_failed r :
    r <> 0 ->
    enable_run p r
      (mk_panel (enabled p) 1 (clk_gpio p) 0 (backlight p)
                (journal p ++ enable_to_disp r))
| enable_done :
    enable_run p 0
      (mk_panel true 1 1 0 (backlight_on (backlight p))
                (journal p ++ enable_to_end (backlight p))).

(** A call of [sharp_ls_disable] on [p] leaves by one of four exits. *)
Inductive disable_run (p : panel_ls037v7dw06) : Z -> panel_ls037v7dw06 -> Prop :=
| disable_disp_failed r :
    r <> 0 ->
    disable_run p r
      (mk_panel (enabled p) (resb_gpio p) 0 (i2ciso_gpio p) (backlight_off (backlight p))
                (journal p ++ disable_to_disp (backlight p) r))
| disable_sleep_failed r :
    r <> 0 ->
    disable_run p r
      (mk_panel (enabled p) (resb_gpio p) 0 (i2ciso_gpio p) (backlight_off (backlight p))
                (journal p ++ disable_to_sleep (backlight p) r))
| disable_rail_failed r :
    r <> 0 ->
    disable_run p r
      (mk_panel (enabled p) 0 0 (i2ciso_gpio p) (backlight_off (backlight p))
                (journal p ++ disable_to_rail (backlight p) r))
| disable_done :
    disable_run p 0
      (mk_panel (enabled p) 0 0 (i2ciso_gpio p) (backlight_off (backlight p))
                (journal p ++ disable_to_rail (backlight p) 0)).

(** ** Further observations on a journal *)

Definition is_regulator_enable (e : event) : bool :=
  match e with EvRegulatorEnable _ => true | _ => false end.

Definition is_regulator_disable (e : event) : bool :=
  match e with EvRegulatorDisable _ => true | _ => false end.

(** The codes returned by the fallible calls among some events, in order. *)
Fixpoint answers (evs : list event) : list Z :=
  match evs with
  | [] => []
  | EvRegulatorEnable r :: rest => r :: answers rest
  | EvRegulatorDisable r :: rest => r :: answers rest
  | EvI2cWrite _ _ r :: rest => r :: answers rest
  | _ :: rest => answers rest
  end.

(** An event as it is when its call succeeds. *)
Definition succeeded (e : event) : event :=
  match e with
  | EvRegulatorEnable _ => EvRegulatorEnable 0
  | EvRegulatorDisable _ => EvRegulatorDisable 0
  | EvI2cWrite c v _ => EvI2cWrite c v 0
  | _ => e
  end.

(** The time asked of [msleep] in total, in milliseconds. *)
Definition slept (evs : list event) : Z := fold_right Z.add 0 (msleeps evs).

(** What the backlight core expects of the properties: a brightness within
    its range and a [state] that is an [unsigned int]. *)
Definition props_ok (b : backlight_properties) : Prop :=
  0 <= brightness b <= max_brightness b /\ 0 <= state b < 2 ^ 32.

(** The hardware side of a panel: the three levels and the backlight. *)
Definition levels (p : panel_ls037v7dw06) : Z * Z * Z :=
  (resb_gpio p, clk_gpio p, i2ciso_gpio p).

(** ** Binding and unbinding the device *)

(** Error numbers of the kernel that the driver names, and the bound of
    [linux/err.h] on the error codes a pointer can carry. *)
Definition EIO          : Z := 5.
Definition ENOMEM       : Z := 12.
Definition EPROBE_DEFER : Z := 517.
Definition MAX_ERRNO    : Z := 4095.

(** A pointer returned by a [devm_*_get] call, as a signed integer of the
    width of a pointer: [IS_ERR] holds of the last [MAX_ERRNO] addresses,
    and [PTR_ERR] reads such a pointer as the (negative) error code. *)
Definition IS_ERR (ptr : Z) : bool := (- MAX_ERRNO <=? ptr) && (ptr <? 0).
Definition PTR_ERR (ptr : Z) : Z := ptr.

(** Conversions of [(int)(uintptr_t)match->data] and of the assignment to
    the [unsigned long] field [driver_data]. *)
Definition to_int (x : Z) : Z := (x + 2 ^ 31) mod 2 ^ 32 - 2 ^ 31.
Definition to_ulong (bits x : Z) : Z := x mod 2 ^ bits.

(** Entries of the two match tables (the empty entry that ends each table
    in C is not kept). *)
Record i2c_device_id : Type := mk_i2c_device_id {
  id_name        : string;
  id_driver_data : Z
}.

Record of_device_id : Type := mk_of_device_id {
  compatible : string;
  data       : Z
}.

Definition panel_id : list i2c_device_id :=
  [mk_i2c_device_id "sharp,ls037v7dw06" 0].

Definition sharp_ls_dt_ids : list of_device_id :=
  [mk_of_device_id "sharp,ls037v7dw06" 0].

(** The result of looking for the backlight: the device node has no
    "backlight" phandle, or it has one and [of_find_backlight_by_node]
    finds no device, or it finds the device with these properties. *)
Inductive backlight_lookup : Type :=
| NoPhandle
| NoDevice
| Found (b : backlight_properties).

(** What the kernel answers to the calls of [sharp_ls_probe]. *)
Record platform : Type := mk_platform {
  i2c_check_functionality : bool;
  devm_kzalloc            : bool;
  devm_regulator_get      : Z;
  devm_gpiod_get          : gpio -> Z;
  backlight_node          : backlight_lookup;
  of_match_device         : option of_device_id;
  BITS_PER_LONG           : Z
}.

(** Lines of the kernel log written for the device. *)
Inductive log_line : Type :=
| dev_err (format : string) (arg : Z)
| dev_info (format : string).

Definition newline : string := String (Ascii.ascii_of_nat 10) EmptyString.
Definition failed_to_request_gpio : string := String.append "failed to request GPIO: %d" newline.
Definition driver_initialized : string := String.append "Driver Initialized." newline.
Definition driver_unloaded : string := String.append "Driver Unloaded." newline.

(** The panel structure as client data: the part the sequences use, and
    the [driver_data] field that only [sharp_ls_probe] assigns. *)
Record panel_data : Type := mk_panel_data {
  panel       : panel_ls037v7dw06;
  driver_data : Z
}.

(** [struct i2c_client], as far as the driver uses it. *)
Record i2c_client : Type := mk_i2c_client {
  clientdata : option panel_data;
  dmesg      : list log_line
}.

Definition printk (l : log_line) (c : i2c_client) : i2c_client :=
  mk_i2c_client (clientdata c) (dmesg c ++ [l]).

(** [sharp_ls_probe] either returns a code, or, when the device node names
    no backlight, reaches [sharp_ls_enable] with a null [backlight] pointer,
    a call that the embedding of [sharp_ls_enable] does not cover. *)
Inductive probe_result : Type :=
| Probed (err : Z) (c : i2c_client)
| EnableWithoutBacklight.

Definition sharp_ls_probe (hw : oracle) (k : platform) (client : i2c_client)
    (i2c_id : option i2c_device_id) : probe_result :=
  if negb (i2c_check_functionality k) then Probed (- EIO) client else
  if negb (devm_kzalloc k) then Probed (- ENOMEM) client else
  (* panel->enabled = false; panel->client = client; *)
  if IS_ERR (devm_regulator_get k) then Probed (PTR_ERR (devm_regulator_get k)) client else
  if IS_ERR (devm_gpiod_get k RESB) then
    let err := PTR_ERR (devm_gpiod_get k RESB) in
    Probed err (printk (dev_err failed_to_request_gpio err) client) else
  if IS_ERR (devm_gpiod_get k CLK) then
    let err := PTR_ERR (devm_gpiod_get k CLK) in
    Probed err (printk (dev_err failed_to_request_gpio err) client) else
  if IS_ERR (devm_gpiod_get k I2CISO) then
    let err := PTR_ERR (devm_gpiod_get k I2CISO) in
    Probed err (printk (dev_err failed_to_request_gpio err) client) else
  match backlight_node k with
  | NoDevice => Probed (- EPROBE_DEFER) client
  | NoPhandle => EnableWithoutBacklight
  | Found b =>
      let dd :=
        match i2c_id with
        | Some id => id_driver_data id
        | None =>
            match of_match_device k with
            | Some m => to_ulong (BITS_PER_LONG k) (to_int (data m))
            | None => 0
            end
        end in
      (* the lines were requested with GPIOD_OUT_LOW *)
      let (err, p) := sharp_ls_enable hw (mk_panel false 0 0 0 b []) in
      let client' := mk_i2c_client (Some (mk_panel_data p dd)) (dmesg client) in
      Probed err (if err =? 0 then printk (dev_info driver_initialized) client'
                  else client')
  end.

(** [sharp_ls_remove]; the I2C core calls it on a bound client only, one
    whose probe has set the client data. *)
Definition sharp_ls_remove (hw : oracle) (client : i2c_client) : option (Z * i2c_client) :=
  match clientdata client with
  | None => None
  | Some d =>
      let (err, p) := sharp_ls_disable hw (panel d) in
      let client' := mk_i2c_client (Some (mk_panel_data p (driver_data d))) (dmesg client) in
      Some (err, if err =? 0 then printk (dev_info driver_unloaded) client' else client')
  end.

(** A platform on which every call of [sharp_ls_probe] succeeds; the id
    passed by the I2C core is the entry of [panel_id]. *)
Definition platform_ok : platform :=
  mk_platform true true 0x1000 (fun _ => 0x2000)
              (Found (mk_props 0 255 FB_BLANK_POWERDOWN BL_CORE_FBBLANK))
              None 64.

Definition client_unbound : i2c_client := mk_i2c_client None [].

(** The outcome of a call, by parts. *)
Definition enable_ret (hw : oracle) (p : panel_ls037v7dw06) : Z :=
  fst (sharp_ls_enable hw p).
Definition enable_end (hw : oracle) (p : panel_ls037v7dw06) : panel_ls037v7dw06 :=
  snd (sharp_ls_enable hw p).
Definition enable_events (hw : oracle) (p : panel_ls037v7dw06) : list event :=
  emitted p (enable_end hw p).

Definition disable_ret (hw : oracle) (p : panel_ls037v7dw06) : Z :=
  fst (sharp_ls_disable hw p).
Definition disable_end (hw : oracle) (p : panel_ls037v7dw06) : panel_ls037v7dw06 :=
  snd (sharp_ls_disable hw p).
Definition disable_events (hw : oracle) (p : panel_ls037v7dw06) : list event :=
  emitted p (disable_end hw p).

(** Whether every resource that [sharp_ls_probe] asks for is handed over, so
    that it goes on to [sharp_ls_enable]. *)
Definition resources_acquired (k : platform) : bool :=
  i2c_check_functionality k && devm_kzalloc k &&
  negb (IS_ERR (devm_regulator_get k)) &&
  forallb (fun line => negb (IS_ERR (devm_gpiod_get k line))) [RESB; CLK; I2CISO] &&
  match backlight_node k with NoDevice => false | _ => true end.

(** ** Basic facts *)

Lemma emitted_app (p : panel_ls037v7dw06) e r c i b (evs : list event) :
  emitted p (mk_panel e r c i b (journal p ++ evs)) = evs.
Proof.
  unfold emitted; simpl.
  induction (journal p) as [|x l IH]; simpl; auto.
Qed.

Ltac flatten_journal :=
  repeat rewrite <- app_assoc; simpl app.

(** Unfolding the statements of a function body on a panel given by its
    fields. *)
Ltac run_body :=
  cbv [sharp_ls_enable sharp_ls_disable body sharp_ls_enable_body
       sharp_ls_disable_body seq return_if_nonzero gpiod_set_value_cansleep
       regulator_enable regulator_disable msleep i2c_smbus_write_byte_data
       props store backlight_update_status assign_enabled skip return_
       log_event set_line set_backlight set_enabled set_prop
       journal enabled resb_gpio clk_gpio i2ciso_gpio backlight
       brightness max_brightness power state fst snd].

(** Case analysis on the answer of the board to the next fallible call. *)
Ltac ask_hw :=
  match goal with
  | |- context [Z.eqb (?hw ?h ?c) 0] =>
      let r := fresh "r" in
      let E := fresh "E" in
      remember (hw h c) as r eqn:E; clear E;
      destruct (Z.eqb_spec r 0); [subst r|]; cbv beta iota
  end.

Lemma sharp_ls_enable_run (hw : oracle) (p : panel_ls037v7dw06) :
  enable_run p (fst (sharp_ls_enable hw p)) (snd (sharp_ls_enable hw p)).
Proof.
  destruct p as [en resb clk iso bl j].
  run_body.
  ask_hw; [ask_hw; [ask_hw|]|]; flatten_journal.
  - apply (enable_done (mk_panel en resb clk iso bl j)).
  - now apply (enable_disp_failed (mk_panel en resb clk iso bl j)).
  - now apply (enable_sleep_failed (mk_panel en resb clk iso bl j)).
  - now apply (enable_rail_failed (mk_panel en resb clk iso bl j)).
Qed.

Lemma sharp_ls_disable_run (hw : oracle) (p : panel_ls037v7dw06) :
  disable_run p (fst (sharp_ls_disable hw p)) (snd (sharp_ls_disable hw p)).
Proof.
  destruct p as [en resb clk iso bl j].
  run_body.
  ask_hw; [ask_hw; [ask_hw|]|]; flatten_journal.
  - apply (disable_done (mk_panel en resb clk iso bl j)).
  - now apply (disable_rail_failed (mk_panel en resb clk iso bl j)).
  - now apply (disable_sleep_failed (mk_panel en resb clk iso bl j)).
  - now apply (disable_disp_failed (mk_panel en resb clk iso bl j)).
Qed.

(** Neither function reads the [enabled] flag: its value at entry changes
    nothing but the flag left behind. *)
Lemma sharp_ls_enable_flag (hw : oracle) (b : bool) (p : panel_ls037v7dw06) :
  sharp_ls_enable hw (set_enabled b p) =
  (fst (sharp_ls_enable hw p),
   set_enabled (if fst (sharp_ls_enable hw p) =? 0 then true else b)
               (snd (sharp_ls_enable hw p))).
Proof.
  destruct p as [en resb clk iso bl j].
  run_body.
  ask_hw; [ask_hw; [ask_hw|]|];
    solve [ reflexivity
          | destruct (Z.eqb_spec r 0); [contradiction | reflexivity] ].
Qed.

Lemma sharp_ls_disable_flag (hw : oracle) (b : bool) (p : panel_ls037v7dw06) :
  sharp_ls_disable hw (set_enabled b p) =
  (fst (sharp_ls_disable hw p), set_enabled b (snd (sharp_ls_disable hw p))).
Proof.
  destruct p as [en resb clk iso bl j].
  run_body.
  ask_hw; [ask_hw; [ask_hw|]|]; reflexivity.
Qed.

Lemma set_enabled_same (p : panel_ls037v7dw06) : set_enabled (enabled p) p = p.
Proof. destruct p; reflexivity. Qed.

(** [sharp_ls_disable] has no assignment to the flag. *)
Lemma sharp_ls_disable_enabled (hw : oracle) (p : panel_ls037v7dw06) :
  enabled (snd (sharp_ls_disable hw p)) = enabled p.
Proof.
  destruct (sharp_ls_disable_run hw p); reflexivity.
Qed.

(** On a board that answers 0 to every call, [sharp_ls_enable] succeeds. *)
Lemma sharp_ls_enable_succeeds (hw : oracle) (p : panel_ls037v7dw06) :
  (forall h c, hw h c = 0) ->
  fst (sharp_ls_enable hw p) = 0 /\ enabled (snd (sharp_ls_enable hw p)) = true.
Proof.
  intros Hok.
  destruct p as [en resb clk iso bl j].
  run_body.
  repeat (rewrite Hok; change (0 =? 0) with true; cbv beta iota).
  split; reflexivity.
Qed.

Lemma blank_flag_set (st : Z) : blank_flag (Z.lor st BL_CORE_FBBLANK) = true.
Proof.
  unfold blank_flag.
  destruct (Z.eqb_spec (Z.land (Z.lor st BL_CORE_FBBLANK) BL_CORE_FBBLANK) 0) as [E|E];
    [|reflexivity].
  apply (f_equal (fun x => Z.testbit x 1)) in E.
  rewrite Z.land_spec, Z.lor_spec in E.
  change (Z.testbit BL_CORE_FBBLANK 1) with true in E.
  rewrite orb_true_r in E. discriminate E.
Qed.

Lemma blank_flag_cleared (st : Z) :
  blank_flag (Z.land st (to_uint (Z.lnot BL_CORE_FBBLANK))) = false.
Proof.
  unfold blank_flag.
  rewrite <- Z.land_assoc.
  change (Z.land (to_uint (Z.lnot BL_CORE_FBBLANK)) BL_CORE_FBBLANK) with 0.
  rewrite Z.land_0_r. reflexivity.
Qed.

(** Clearing the bit keeps an [unsigned int] an [unsigned int]. *)
Lemma state_clear_in_range (st : Z) :
  0 <= st ->
  0 <= Z.land st (to_uint (Z.lnot BL_CORE_FBBLANK)) < 2 ^ 32.
Proof.
  intros Hlo.
  assert (Hnn : 0 <= Z.land st (to_uint (Z.lnot BL_CORE_FBBLANK))).
  { apply Z.land_nonneg. left. exact Hlo. }
  split; [exact Hnn|].
  destruct (Z.eq_dec (Z.land st (to_uint (Z.lnot BL_CORE_FBBLANK))) 0) as [E|E].
  - rewrite E. reflexivity.
  - apply Z.log2_lt_pow2; [lia|].
    pose proof (Z.log2_land st (to_uint (Z.lnot BL_CORE_FBBLANK)) Hlo) as Hlog.
    assert (Hm : 0 <= to_uint (Z.lnot BL_CORE_FBBLANK)) by (vm_compute; discriminate).
    specialize (Hlog Hm).
    change (Z.log2 (to_uint (Z.lnot BL_CORE_FBBLANK))) with 31 in Hlog.
    lia.
Qed.

Example panel_on_value :
  panel_on =
  mk_panel true 1 1 0 (mk_props 255 255 0 0)
    [EvGpioSet RESB 0; EvGpioSet I2CISO 0; EvRegulatorEnable 0; EvMsleep 10;
     EvGpioSet RESB 1; EvMsleep 1; EvI2cWrite 0x11 0 0; EvMsleep 100;
     EvI2cWrite 0x29 0 0; EvGpioSet CLK 1;
     EvBacklightStore PropState 0; EvBacklightStore PropPower 0;
     EvBacklightStore PropBrightness 255;
     EvBacklightUpdate (mk_props 255 255 0 0)].
Proof. vm_compute. reflexivity. Qed.

Example disable_runs :
  sharp_ls_disable hw_ok panel_on =
  (0, mk_panel true 0 0 0 (mk_props 0 255 4 2)
        (journal panel_on ++
         [EvBacklightStore PropPower 4; EvBacklightStore PropState 2;
          EvBacklightStore PropBrightness 0; EvBacklightUpdate (mk_props 0 255 4 2);
          EvGpioSet CLK 0; EvMsleep 1; EvI2cWrite 0x28 0 0; EvMsleep 20;
          EvI2cWrite 0x10 0 0; EvMsleep 100; EvGpioSet RESB 0; EvMsleep 1;
          EvRegulatorDisable 0])).
Proof. vm_compute. reflexivity. Qed.

(** ** The register writes *)

(** C1, as stated, fails: on a board where every call succeeds,
    [sharp_ls_enable] returns 0 and the first register address it writes is
    0x11, not 0x10. *)
Lemma enable_first_write_is_not_0x10 :
  fst (sharp_ls_enable hw_ok panel_probed) = 0 /\
  hd_error (i2c_commands (emitted panel_probed (snd (sharp_ls_enable hw_ok panel_probed))))
    = Some 0x11 /\
  hd_error (i2c_commands (emitted panel_probed (snd (sharp_ls_enable hw_ok panel_probed))))
    <> Some 0x10.
Proof.
  repeat split; try (vm_compute; reflexivity).
  vm_compute. intros H. discriminate H.
Qed.

(** C1, amended: for every successful call of [sharp_ls_enable] the register
    writes of the call are exactly two, both with data 0: first the source's
    [LS037V7DW06_SLEEP_ON], whose value is 0x11, and later
    [LS037V7DW06_DISP_ON], 0x29.  The first register address written is
    0x11. *)
Theorem enable_writes_0x11_then_0x29 (hw : oracle) (p : panel_ls037v7dw06) :
  fst (sharp_ls_enable hw p) = 0 ->
  i2c_writes (emitted p (snd (sharp_ls_enable hw p))) =
    [(LS037V7DW06_SLEEP_ON, 0, 0); (LS037V7DW06_DISP_ON, 0, 0)] /\
  i2c_commands (emitted p (snd (sharp_ls_enable hw p))) = [0x11; 0x29] /\
  hd_error (i2c_commands (emitted p (snd (sharp_ls_enable hw p)))) = Some 0x11.
Proof.
  intros Hret.
  destruct (sharp_ls_enable_run hw p) as [r Hr|r Hr|r Hr|];
    try contradiction.
  unfold i2c_commands. rewrite emitted_app. simpl. auto.
Qed.

Lemma enable_writes_0x11_then_0x29_witness :
  fst (sharp_ls_enable hw_ok panel_probed) = 0 /\
  i2c_commands (emitted panel_probed (snd (sharp_ls_enable hw_ok panel_probed)))
    = [0x11; 0x29].
Proof.
  split; [reflexivity|].
  apply (enable_writes_0x11_then_0x29 hw_ok panel_probed). reflexivity.
Defined.

(** C2, as stated, fails: a successful [sharp_ls_disable] writes 0x28 and
    then 0x10; its second write is not to 0x11. *)
Lemma disable_second_write_is_not_0x11 :
  fst (sharp_ls_disable hw_ok panel_on) = 0 /\
  i2c_commands (emitted panel_on (snd (sharp_ls_disable hw_ok panel_on))) = [0x28; 0x10] /\
  i2c_commands (emitted panel_on (snd (sharp_ls_disable hw_ok panel_on))) <> [0x28; 0x11].
Proof.
  repeat split; try (vm_compute; reflexivity).
  vm_compute. intros H. discriminate H.
Qed.

(** C2, amended: during a successful [sharp_ls_disable] exactly two register
    writes occur, both with data 0: 0x28 ([LS037V7DW06_DISP_OFF]) first and
    then 0x10 (the source's [LS037V7DW06_SLEEP_OFF]).  A call that is
    aborted wrote a prefix of the two, starting with 0x28. *)
Theorem disable_writes_0x28_then_0x10 (hw : oracle) (p : panel_ls037v7dw06) :
  (fst (sharp_ls_disable hw p) = 0 ->
   i2c_writes (emitted p (snd (sharp_ls_disable hw p))) =
     [(LS037V7DW06_DISP_OFF, 0, 0); (LS037V7DW06_SLEEP_OFF, 0, 0)] /\
   i2c_commands (emitted p (snd (sharp_ls_disable hw p))) = [0x28; 0x10]) /\
  (i2c_commands (emitted p (snd (sharp_ls_disable hw p))) = [0x28] \/
   i2c_commands (emitted p (snd (sharp_ls_disable hw p))) = [0x28; 0x10]).
Proof.
  unfold i2c_commands.
  destruct (sharp_ls_disable_run hw p) as [r Hr|r Hr|r Hr|];
    rewrite emitted_app; simpl; split; auto; intros; contradiction.
Qed.

Lemma disable_writes_0x28_then_0x10_witness :
  fst (sharp_ls_disable hw_ok panel_on) = 0 /\
  i2c_commands (emitted panel_on (snd (sharp_ls_disable hw_ok panel_on))) = [0x28; 0x10].
Proof.
  split; [reflexivity|].
  apply (proj1 (disable_writes_0x28_then_0x10 hw_ok panel_on)). reflexivity.
Defined.

(** ** The state flag *)

(** C3, evaluated on the code: starting from the probed panel, whose state is
    [Inactive], a successful [sharp_ls_enable] followed by a successful
    [sharp_ls_disable] leaves the flag set; the state read from it is
    [Active], not [Inactive]. *)
Theorem enable_then_disable_leaves_flag_set :
  panel_state panel_probed = Inactive /\
  fst (sharp_ls_enable hw_ok panel_probed) = 0 /\
  panel_state panel_on = Active /\
  fst (sharp_ls_disable hw_ok panel_on) = 0 /\
  enabled (snd (sharp_ls_disable hw_ok panel_on)) = true /\
  panel_state (snd (sharp_ls_disable hw_ok panel_on)) = Active.
Proof.
  repeat split; vm_compute; reflexivity.
Qed.

(** C4, as stated, fails: called on a panel whose flag is set,
    [sharp_ls_enable] returns 0 and goes through its sequence (14 journal
    entries, starting with RESB driven low); called on a panel whose flag is
    clear, [sharp_ls_disable] does the same with its 13 entries. *)
Lemma wrong_state_call_is_not_rejected :
  (enabled panel_on = true /\
   fst (sharp_ls_enable hw_ok panel_on) = 0 /\
   length (emitted panel_on (snd (sharp_ls_enable hw_ok panel_on))) = 14%nat /\
   resb_gpio panel_on = 1 /\
   hd_error (emitted panel_on (snd (sharp_ls_enable hw_ok panel_on)))
     = Some (EvGpioSet RESB 0)) /\
  (enabled panel_probed = false /\
   fst (sharp_ls_disable hw_ok panel_probed) = 0 /\
   length (emitted panel_probed (snd (sharp_ls_disable hw_ok panel_probed))) = 13%nat /\
   i2c_commands (emitted panel_probed (snd (sharp_ls_disable hw_ok panel_probed)))
     = [0x28; 0x10]).
Proof.
  repeat split; vm_compute; reflexivity.
Qed.

(** C4, amended: neither function looks at the flag.  [sharp_ls_enable]
    called with the flag set, and [sharp_ls_disable] called with the flag
    clear, leave the flag as it was, but there is no precondition error:
    the call returns the same code and leaves the same lines, backlight and
    journal as the call from the other state would, and it always starts
    acting on the resources. *)
Theorem wrong_state_call_runs_the_sequence (hw : oracle) (p : panel_ls037v7dw06) :
  (enabled p = true ->
   enabled (snd (sharp_ls_enable hw p)) = true /\
   fst (sharp_ls_enable hw p) = fst (sharp_ls_enable hw (set_enabled false p)) /\
   snd (sharp_ls_enable hw p) =
     set_enabled true (snd (sharp_ls_enable hw (set_enabled false p))) /\
   hd_error (emitted p (snd (sharp_ls_enable hw p))) = Some (EvGpioSet RESB 0)) /\
  (enabled p = false ->
   enabled (snd (sharp_ls_disable hw p)) = false /\
   fst (sharp_ls_disable hw p) = fst (sharp_ls_disable hw (set_enabled true p)) /\
   snd (sharp_ls_disable hw p) =
     set_enabled false (snd (sharp_ls_disable hw (set_enabled true p))) /\
   hd_error (emitted p (snd (sharp_ls_disable hw p)))
     = Some (EvBacklightStore PropPower FB_BLANK_POWERDOWN)).
Proof.
  split; intros He.
  - rewrite (sharp_ls_enable_flag hw false p). cbn [fst snd].
    assert (Hflag : enabled (snd (sharp_ls_enable hw p)) = true).
    { destruct (sharp_ls_enable_run hw p); cbn [enabled]; auto. }
    repeat split; auto.
    + rewrite <- (set_enabled_same (snd (sharp_ls_enable hw p))) at 1.
      rewrite Hflag. destruct (snd (sharp_ls_enable hw p)); reflexivity.
    + destruct (sharp_ls_enable_run hw p); rewrite emitted_app; reflexivity.
  - rewrite (sharp_ls_disable_flag hw true p). cbn [fst snd].
    assert (Hflag : enabled (snd (sharp_ls_disable hw p)) = false).
    { rewrite sharp_ls_disable_enabled. exact He. }
    repeat split; auto.
    + rewrite <- (set_enabled_same (snd (sharp_ls_disable hw p))) at 1.
      rewrite Hflag. destruct (snd (sharp_ls_disable hw p)); reflexivity.
    + destruct (sharp_ls_disable_run hw p); rewrite emitted_app; reflexivity.
Qed.

Lemma wrong_state_call_runs_the_sequence_witness :
  enabled panel_on = true /\
  hd_error (emitted panel_on (snd (sharp_ls_enable hw_ok panel_on)))
    = Some (EvGpioSet RESB 0) /\
  enabled panel_probed = false /\
  hd_error (emitted panel_probed (snd (sharp_ls_disable hw_ok panel_probed)))
    = Some (EvBacklightStore PropPower FB_BLANK_POWERDOWN).
Proof.
  split; [reflexivity|]. split.
  - apply (proj1 (wrong_state_call_runs_the_sequence hw_ok panel_on)). reflexivity.
  - split; [reflexivity|].
    apply (proj2 (wrong_state_call_runs_the_sequence hw_ok panel_probed)). reflexivity.
Defined.

(** ** Failures during [sharp_ls_enable] *)

(** C5, as stated, fails: when the regulator refuses, the call returns its
    code and writes no register, but the state read from the panel is
    [Inactive] as before the call, not [Faulted]. *)
Lemma rail_failure_does_not_fault :
  fst (sharp_ls_enable hw_rail_dead panel_probed) = -5 /\
  i2c_writes (emitted panel_probed (snd (sharp_ls_enable hw_rail_dead panel_probed))) = [] /\
  enabled (snd (sharp_ls_enable hw_rail_dead panel_probed)) = enabled panel_probed /\
  panel_state (snd (sharp_ls_enable hw_rail_dead panel_probed)) = Inactive /\
  panel_state (snd (sharp_ls_enable hw_rail_dead panel_probed)) <> Faulted.
Proof.
  repeat split; try (vm_compute; reflexivity).
  vm_compute. intros H. discriminate H.
Qed.

(** C5, amended: if enabling the power rail fails during [sharp_ls_enable]
    (the call's journal has a regulator enable that returned [e <> 0]), the
    call aborts returning that code [e], the flag and the state read from it
    are what they were at entry, and no register write is issued in that
    call. *)
Theorem enable_rail_failure (hw : oracle) (p : panel_ls037v7dw06) (e : Z) :
  In (EvRegulatorEnable e) (emitted p (snd (sharp_ls_enable hw p))) ->
  e <> 0 ->
  fst (sharp_ls_enable hw p) = e /\
  enabled (snd (sharp_ls_enable hw p)) = enabled p /\
  panel_state (snd (sharp_ls_enable hw p)) = panel_state p /\
  i2c_writes (emitted p (snd (sharp_ls_enable hw p))) = [].
Proof.
  intros Hin He. unfold panel_state.
  destruct (sharp_ls_enable_run hw p) as [r Hr|r Hr|r Hr|];
    rewrite emitted_app in *; simpl in Hin;
    repeat (destruct Hin as [Hin|Hin]; try discriminate Hin);
    try contradiction; injection Hin as Hin; try congruence.
  subst r. cbn [enabled]. repeat split; reflexivity.
Qed.

Lemma enable_rail_failure_witness :
  In (EvRegulatorEnable (-5))
     (emitted panel_probed (snd (sharp_ls_enable hw_rail_dead panel_probed))) /\
  fst (sharp_ls_enable hw_rail_dead panel_probed) = -5 /\
  enabled (snd (sharp_ls_enable hw_rail_dead panel_probed)) = false.
Proof.
  assert (Hin : In (EvRegulatorEnable (-5))
    (emitted panel_probed (snd (sharp_ls_enable hw_rail_dead panel_probed)))).
  { vm_compute. right. right. left. reflexivity. }
  split; [exact Hin|].
  destruct (enable_rail_failure hw_rail_dead panel_probed (-5) Hin) as (H1 & H2 & _).
  - lia.
  - split; [exact H1 | exact H2].
Defined.

(** C6, as stated, fails: when the first register write is not
    acknowledged, the call returns the bus code and leaves the clock line
    and the backlight alone, but the state read from the panel is
    [Inactive] as before the call, not [Faulted]. *)
Lemma first_write_failure_does_not_fault :
  fst (sharp_ls_enable (hw_nak 0x11) panel_probed) = -6 /\
  hd_error (i2c_writes (emitted panel_probed
              (snd (sharp_ls_enable (hw_nak 0x11) panel_probed)))) = Some (0x11, 0, -6) /\
  enabled (snd (sharp_ls_enable (hw_nak 0x11) panel_probed)) = enabled panel_probed /\
  panel_state (snd (sharp_ls_enable (hw_nak 0x11) panel_probed)) = Inactive /\
  panel_state (snd (sharp_ls_enable (hw_nak 0x11) panel_probed)) <> Faulted.
Proof.
  repeat split; try (vm_compute; reflexivity).
  vm_compute. intros H. discriminate H.
Qed.

(** C6, amended: if the first register write of [sharp_ls_enable] (the
    write to [LS037V7DW06_SLEEP_ON]) fails with code [e <> 0], the call
    aborts returning [e], the flag and the state read from it are what they
    were at entry, and the clock line and the backlight are not touched in
    that call: no journal entry drives CLK or acts on the backlight, and the
    level and the properties are those at entry. *)
Theorem enable_first_write_failure
    (hw : oracle) (p : panel_ls037v7dw06) (c v e : Z) :
  hd_error (i2c_writes (emitted p (snd (sharp_ls_enable hw p)))) = Some (c, v, e) ->
  e <> 0 ->
  c = LS037V7DW06_SLEEP_ON /\
  fst (sharp_ls_enable hw p) = e /\
  enabled (snd (sharp_ls_enable hw p)) = enabled p /\
  panel_state (snd (sharp_ls_enable hw p)) = panel_state p /\
  existsb (drives CLK) (emitted p (snd (sharp_ls_enable hw p))) = false /\
  existsb on_backlight (emitted p (snd (sharp_ls_enable hw p))) = false /\
  clk_gpio (snd (sharp_ls_enable hw p)) = clk_gpio p /\
  backlight (snd (sharp_ls_enable hw p)) = backlight p.
Proof.
  intros Hw He. unfold panel_state.
  destruct (sharp_ls_enable_run hw p) as [r Hr|r Hr|r Hr|];
    rewrite emitted_app in *; simpl in Hw; try discriminate Hw;
    injection Hw as Hc Hv Hr'; subst; try contradiction.
  cbn [enabled clk_gpio backlight]. repeat split; reflexivity.
Qed.

Lemma enable_first_write_failure_witness :
  hd_error (i2c_writes (emitted panel_probed
              (snd (sharp_ls_enable (hw_nak 0x11) panel_probed)))) = Some (0x11, 0, -6) /\
  fst (sharp_ls_enable (hw_nak 0x11) panel_probed) = -6 /\
  clk_gpio (snd (sharp_ls_enable (hw_nak 0x11) panel_probed)) = 0.
Proof.
  assert (Hw : hd_error (i2c_writes (emitted panel_probed
              (snd (sharp_ls_enable (hw_nak 0x11) panel_probed)))) = Some (0x11, 0, -6)).
  { reflexivity. }
  split; [exact Hw|].
  destruct (enable_first_write_failure (hw_nak 0x11) panel_probed 0x11 0 (-6) Hw)
    as (_ & H1 & _ & _ & _ & _ & H2 & _).
  - lia.
  - split; [exact H1 | exact H2].
Defined.

(** ** Order of the steps and waits *)

(** C7: for every successful [sharp_ls_enable] and [sharp_ls_disable], the
    journal entries of the call carry out the steps of section 4.1 one for
    one in the listed order (register commands by the name of the source's
    macro), and every wait is at least its minimum: the sleeps are 10, 1 and
    100 ms in [sharp_ls_enable] and 1, 20, 100 and 1 ms in
    [sharp_ls_disable], each at its listed place. *)
Theorem successful_calls_follow_the_protocol (hw : oracle) (p : panel_ls037v7dw06) :
  (fst (sharp_ls_enable hw p) = 0 ->
   follows (max_brightness (backlight p))
           (emitted p (snd (sharp_ls_enable hw p))) activate_steps = true /\
   msleeps (emitted p (snd (sharp_ls_enable hw p))) = [10; 1; 100]) /\
  (fst (sharp_ls_disable hw p) = 0 ->
   follows (max_brightness (backlight p))
           (emitted p (snd (sharp_ls_disable hw p))) deactivate_steps = true /\
   msleeps (emitted p (snd (sharp_ls_disable hw p))) = [1; 20; 100; 1]).
Proof.
  split; intros Hret.
  - destruct (sharp_ls_enable_run hw p) as [r Hr|r Hr|r Hr|]; try contradiction.
    rewrite emitted_app. split; [|reflexivity].
    cbn -[blank_flag Z.land to_uint Z.lnot BL_CORE_FBBLANK].
    rewrite blank_flag_cleared, Z.eqb_refl. reflexivity.
  - destruct (sharp_ls_disable_run hw p) as [r Hr|r Hr|r Hr|]; try contradiction.
    rewrite emitted_app. split; [|reflexivity].
    cbn -[blank_flag Z.lor BL_CORE_FBBLANK].
    rewrite blank_flag_set. reflexivity.
Qed.

Lemma successful_calls_follow_the_protocol_witness :
  fst (sharp_ls_enable hw_ok panel_probed) = 0 /\
  follows 255 (emitted panel_probed (snd (sharp_ls_enable hw_ok panel_probed)))
          activate_steps = true /\
  fst (sharp_ls_disable hw_ok panel_on) = 0 /\
  follows 255 (emitted panel_on (snd (sharp_ls_disable hw_ok panel_on)))
          deactivate_steps = true.
Proof.
  split; [reflexivity|]. split.
  - apply (proj1 (successful_calls_follow_the_protocol hw_ok panel_probed)). reflexivity.
  - split; [reflexivity|].
    apply (proj2 (successful_calls_follow_the_protocol hw_ok panel_on)). reflexivity.
Defined.

(** ** What [sharp_ls_disable] does and does not touch *)

(** C8: [sharp_ls_disable] never touches the bus-isolation line: in every
    call, whatever its result, no journal entry drives I2CISO and the line
    has at exit the level it had at entry.  [sharp_ls_enable], the only
    other operation, drives it low in every call. *)
Theorem disable_leaves_isolation_line (hw : oracle) (p : panel_ls037v7dw06) :
  i2ciso_gpio (snd (sharp_ls_disable hw p)) = i2ciso_gpio p /\
  existsb (drives I2CISO) (emitted p (snd (sharp_ls_disable hw p))) = false /\
  i2ciso_gpio (snd (sharp_ls_enable hw p)) = 0 /\
  nth_error (emitted p (snd (sharp_ls_enable hw p))) 1 = Some (EvGpioSet I2CISO 0).
Proof.
  repeat split.
  - destruct (sharp_ls_disable_run hw p); reflexivity.
  - destruct (sharp_ls_disable_run hw p); rewrite emitted_app; reflexivity.
  - destruct (sharp_ls_enable_run hw p); reflexivity.
  - destruct (sharp_ls_enable_run hw p); rewrite emitted_app; reflexivity.
Qed.

(** C9: every failing [sharp_ls_enable] leaves the flag as it was, so a flag
    that was clear is still clear; the flag goes from clear to set only in
    a call that returns 0, whose three fallible calls all returned 0; and
    nothing blocks a retry: called again on the panel the failed call left,
    on a board that now answers 0, [sharp_ls_enable] returns 0 and sets the
    flag. *)
Theorem failed_enable_keeps_flag (hw : oracle) (p : panel_ls037v7dw06) :
  (fst (sharp_ls_enable hw p) <> 0 ->
   enabled (snd (sharp_ls_enable hw p)) = enabled p /\
   panel_state (snd (sharp_ls_enable hw p)) = panel_state p) /\
  (enabled p = false ->
   enabled (snd (sharp_ls_enable hw p)) = true ->
   fst (sharp_ls_enable hw p) = 0 /\
   In (EvRegulatorEnable 0) (emitted p (snd (sharp_ls_enable hw p))) /\
   i2c_writes (emitted p (snd (sharp_ls_enable hw p))) =
     [(LS037V7DW06_SLEEP_ON, 0, 0); (LS037V7DW06_DISP_ON, 0, 0)]) /\
  (fst (sharp_ls_enable hw p) <> 0 ->
   forall hw' : oracle,
     (forall h c, hw' h c = 0) ->
     fst (sharp_ls_enable hw' (snd (sharp_ls_enable hw p))) = 0 /\
     enabled (snd (sharp_ls_enable hw' (snd (sharp_ls_enable hw p)))) = true).
Proof.
  split; [|split].
  - intros Hret. unfold panel_state.
    destruct (sharp_ls_enable_run hw p) as [r Hr|r Hr|r Hr|];
      cbn [enabled]; auto; contradiction.
  - intros Hclear Hset.
    destruct (sharp_ls_enable_run hw p) as [r Hr|r Hr|r Hr|];
      cbn [enabled] in Hset; try congruence.
    rewrite emitted_app. repeat split. simpl. auto.
  - intros _ hw' Hok. apply sharp_ls_enable_succeeds. exact Hok.
Qed.

Lemma failed_enable_keeps_flag_witness :
  fst (sharp_ls_enable hw_rail_dead panel_probed) <> 0 /\
  enabled (snd (sharp_ls_enable hw_rail_dead panel_probed)) = false /\
  fst (sharp_ls_enable hw_ok (snd (sharp_ls_enable hw_rail_dead panel_probed))) = 0.
Proof.
  assert (Hret : fst (sharp_ls_enable hw_rail_dead panel_probed) <> 0).
  { vm_compute. intros H. discriminate H. }
  split; [exact Hret|].
  destruct (failed_enable_keeps_flag hw_rail_dead panel_probed) as (H1 & _ & H3).
  split.
  - exact (proj1 (H1 Hret)).
  - apply (H3 Hret hw_ok). intros h c. reflexivity.
Defined.

(** C10: [sharp_ls_disable] shuts the backlight down (power-down stored,
    blank flag set, brightness zero, update) and drives the clock line low
    in every call, before its first fallible call, the write to
    [LS037V7DW06_DISP_OFF]: the journal of every call starts with these
    entries, and whatever the call returns the backlight is powered down
    and blanked at brightness zero and the clock line is low. *)
Theorem disable_backlight_and_clock_first (hw : oracle) (p : panel_ls037v7dw06) :
  (exists (r : Z) (rest : list event),
     emitted p (snd (sharp_ls_disable hw p)) =
       [EvBacklightStore PropPower FB_BLANK_POWERDOWN;
        EvBacklightStore PropState (Z.lor (state (backlight p)) BL_CORE_FBBLANK);
        EvBacklightStore PropBrightness 0;
        EvBacklightUpdate
          (mk_props 0 (max_brightness (backlight p)) FB_BLANK_POWERDOWN
                    (Z.lor (state (backlight p)) BL_CORE_FBBLANK));
        EvGpioSet CLK 0;
        EvMsleep 1;
        EvI2cWrite LS037V7DW06_DISP_OFF 0 r] ++ rest) /\
  power (backlight (snd (sharp_ls_disable hw p))) = FB_BLANK_POWERDOWN /\
  blank_flag (state (backlight (snd (sharp_ls_disable hw p)))) = true /\
  brightness (backlight (snd (sharp_ls_disable hw p))) = 0 /\
  clk_gpio (snd (sharp_ls_disable hw p)) = 0.
Proof.
  destruct (sharp_ls_disable_run hw p) as [r Hr|r Hr|r Hr|];
    rewrite emitted_app; cbn [backlight clk_gpio backlight_off power state brightness];
    (split; [|repeat split; auto using blank_flag_set]).
  - exists r, []. reflexivity.
  - exists 0. eexists. reflexivity.
  - exists 0. eexists. reflexivity.
  - exists 0. eexists. reflexivity.
Qed.

(** A [sharp_ls_disable] aborted at its first write has already shut the
    backlight down and stopped the clock line. *)
Example aborted_disable_runs :
  sharp_ls_disable (hw_nak 0x28) panel_on =
  (-6, mk_panel true 1 0 0 (mk_props 0 255 4 2)
         (journal panel_on ++
          [EvBacklightStore PropPower 4; EvBacklightStore PropState 2;
           EvBacklightStore PropBrightness 0; EvBacklightUpdate (mk_props 0 255 4 2);
           EvGpioSet CLK 0; EvMsleep 1; EvI2cWrite 0x28 0 (-6)])).
Proof. vm_compute. reflexivity. Qed.

(** ** More on the two sequences *)

Ltac enable_cases hw p :=
  unfold enable_events in *; unfold enable_ret, enable_end in *;
  destruct (sharp_ls_enable_run hw p) as [r Hr|r Hr|r Hr|];
  rewrite ?emitted_app in *.

Ltac disable_cases hw p :=
  unfold disable_events in *; unfold disable_ret, disable_end in *;
  destruct (sharp_ls_disable_run hw p) as [r Hr|r Hr|r Hr|];
  rewrite ?emitted_app in *.

(** X1: a successful [sharp_ls_enable] leaves the flag set, RESB and CLK
    high and I2CISO low, whatever the levels were at entry, and the
    backlight unblanked at its maximum brightness: power
    [FB_BLANK_UNBLANK], blank bit clear, brightness equal to the unchanged
    [max_brightness]. *)
Theorem enable_success_state (hw : oracle) (p : panel_ls037v7dw06) :
  enable_ret hw p = 0 ->
  enabled (enable_end hw p) = true /\
  levels (enable_end hw p) = (1, 1, 0) /\
  power (backlight (enable_end hw p)) = FB_BLANK_UNBLANK /\
  blank_flag (state (backlight (enable_end hw p))) = false /\
  brightness (backlight (enable_end hw p)) = max_brightness (backlight p) /\
  max_brightness (backlight (enable_end hw p)) = max_brightness (backlight p).
Proof.
  intros Hret. enable_cases hw p; try contradiction.
  cbn [enabled levels resb_gpio clk_gpio i2ciso_gpio backlight backlight_on
       power state brightness max_brightness].
  repeat split. apply blank_flag_cleared.
Qed.

Lemma enable_success_state_witness :
  enable_ret hw_ok panel_probed = 0 /\
  levels (enable_end hw_ok panel_probed) = (1, 1, 0) /\
  brightness (backlight (enable_end hw_ok panel_probed)) = 255.
Proof.
  split; [reflexivity|].
  destruct (enable_success_state hw_ok panel_probed) as (_ & H1 & _ & _ & H2 & _).
  - reflexivity.
  - split; [exact H1 | exact H2].
Defined.

(** X2: the clock line and the backlight are switched on by
    [sharp_ls_enable] exactly when it returns 0.  In every failing call,
    whichever of the three fallible calls failed, no journal entry drives
    CLK or acts on the backlight, and the level of CLK and the backlight
    properties are those at entry. *)
Theorem enable_lights_only_on_success (hw : oracle) (p : panel_ls037v7dw06) :
  existsb (drives CLK) (enable_events hw p) = (enable_ret hw p =? 0) /\
  existsb on_backlight (enable_events hw p) = (enable_ret hw p =? 0) /\
  (enable_ret hw p <> 0 ->
   clk_gpio (enable_end hw p) = clk_gpio p /\
   backlight (enable_end hw p) = backlight p).
Proof.
  enable_cases hw p; cbn [clk_gpio backlight];
    try (destruct (Z.eqb_spec r 0); [contradiction|]);
    (split; [reflexivity | split; [reflexivity|]]); intros H.
  1-3: split; reflexivity.
  exfalso. apply H. reflexivity.
Qed.

Lemma enable_lights_only_on_success_witness :
  enable_ret (hw_nak 0x29) panel_probed <> 0 /\
  clk_gpio (enable_end (hw_nak 0x29) panel_probed) = clk_gpio panel_probed.
Proof.
  assert (Hret : enable_ret (hw_nak 0x29) panel_probed <> 0).
  { vm_compute. intros H. discriminate H. }
  split; [exact Hret|].
  exact (proj1 (proj2 (proj2 (enable_lights_only_on_success (hw_nak 0x29) panel_probed)) Hret)).
Defined.

(** X3: [sharp_ls_enable] calls [regulator_enable] exactly once in every
    call and never calls [regulator_disable].  So a call that is aborted at
    a register write returns its error with the rail left enabled. *)
Theorem enable_never_disables_rail (hw : oracle) (p : panel_ls037v7dw06) :
  length (filter is_regulator_enable (enable_events hw p)) = 1%nat /\
  existsb is_regulator_disable (enable_events hw p) = false /\
  (i2c_writes (enable_events hw p) <> [] ->
   In (EvRegulatorEnable 0) (enable_events hw p)).
Proof.
  enable_cases hw p; repeat split; try reflexivity; intros H.
  - exfalso. apply H. reflexivity.
  - simpl. auto.
  - simpl. auto.
  - simpl. auto.
Qed.

Lemma enable_never_disables_rail_witness :
  enable_ret (hw_nak 0x11) panel_probed = -6 /\
  i2c_writes (enable_events (hw_nak 0x11) panel_probed) <> [] /\
  In (EvRegulatorEnable 0) (enable_events (hw_nak 0x11) panel_probed).
Proof.
  assert (Hw : i2c_writes (enable_events (hw_nak 0x11) panel_probed) <> []).
  { vm_compute. intros H. discriminate H. }
  split; [reflexivity|]. split; [exact Hw|].
  exact (proj2 (proj2 (enable_never_disables_rail (hw_nak 0x11) panel_probed)) Hw).
Defined.

(** X4: [sharp_ls_disable] drives RESB low and calls [regulator_disable]
    exactly when both of its register writes returned 0; it never calls
    [regulator_enable].  A call aborted at a write leaves RESB at the level
    it had at entry and the rail as it was. *)
Theorem disable_powers_down_only_after_both_writes
    (hw : oracle) (p : panel_ls037v7dw06) :
  existsb is_regulator_enable (disable_events hw p) = false /\
  (existsb is_regulator_disable (disable_events hw p) = true <->
   i2c_writes (disable_events hw p) =
     [(LS037V7DW06_DISP_OFF, 0, 0); (LS037V7DW06_SLEEP_OFF, 0, 0)]) /\
  (existsb (drives RESB) (disable_events hw p) = true <->
   i2c_writes (disable_events hw p) =
     [(LS037V7DW06_DISP_OFF, 0, 0); (LS037V7DW06_SLEEP_OFF, 0, 0)]) /\
  (existsb (drives RESB) (disable_events hw p) = false ->
   resb_gpio (disable_end hw p) = resb_gpio p).
Proof.
  disable_cases hw p; cbn [resb_gpio]; simpl;
    repeat split; try reflexivity; intros H; try discriminate H;
    injection H as H; contradiction.
Qed.

Lemma disable_powers_down_only_after_both_writes_witness :
  existsb (drives RESB) (disable_events (hw_nak 0x10) panel_on) = false /\
  resb_gpio (disable_end (hw_nak 0x10) panel_on) = 1.
Proof.
  assert (H : existsb (drives RESB) (disable_events (hw_nak 0x10) panel_on) = false).
  { reflexivity. }
  split; [exact H|].
  exact (proj2 (proj2 (proj2
    (disable_powers_down_only_after_both_writes (hw_nak 0x10) panel_on))) H).
Defined.

(** X5: both functions return the code of the last fallible call they
    made, and every fallible call before that one returned 0: the first
    failure ends the call and its code is handed up unchanged. *)
Theorem return_code_is_last_answer (hw : oracle) (p : panel_ls037v7dw06) :
  (exists before : list Z,
     answers (enable_events hw p) = before ++ [enable_ret hw p] /\
     Forall (fun r => r = 0) before) /\
  (exists before : list Z,
     answers (disable_events hw p) = before ++ [disable_ret hw p] /\
     Forall (fun r => r = 0) before).
Proof.
  split.
  - enable_cases hw p.
    + exists []. split; [reflexivity | constructor].
    + exists [0]. split; [reflexivity | repeat constructor].
    + exists [0; 0]. split; [reflexivity | repeat constructor].
    + exists [0; 0]. split; [reflexivity | repeat constructor].
  - disable_cases hw p.
    + exists []. split; [reflexivity | constructor].
    + exists [0]. split; [reflexivity | repeat constructor].
    + exists [0; 0]. split; [reflexivity | repeat constructor].
    + exists [0; 0]. split; [reflexivity | repeat constructor].
Qed.

(** X6: an aborted call did the steps of a successful one up to the call
    that failed and nothing else: with the return codes set to 0, the
    journal of every call of [sharp_ls_enable] is a prefix of the journal
    of a successful call, the whole of it exactly when the call returns 0;
    for [sharp_ls_disable] likewise, the whole of it exactly when
    [regulator_disable] was reached. *)
Theorem aborted_call_is_prefix (hw : oracle) (p : panel_ls037v7dw06) :
  (exists rest : list event,
     map succeeded (enable_events hw p) ++ rest = enable_to_end (backlight p) /\
     (rest = [] <-> enable_ret hw p = 0)) /\
  (exists rest : list event,
     map succeeded (disable_events hw p) ++ rest = disable_to_rail (backlight p) 0 /\
     (rest = [] <-> existsb is_regulator_disable (disable_events hw p) = true)).
Proof.
  split.
  - enable_cases hw p; eexists; (split; [reflexivity|]);
      split; intros H; try discriminate H; try contradiction; reflexivity.
  - disable_cases hw p; eexists; (split; [reflexivity|]);
      split; intros H; try discriminate H; reflexivity.
Qed.

(** X7: a successful [sharp_ls_enable] asks for 111 ms of sleep in all and
    a successful [sharp_ls_disable] for 122 ms; no call asks for more, and
    every call of [sharp_ls_disable] sleeps at least 1 ms. *)
Theorem sleep_totals (hw : oracle) (p : panel_ls037v7dw06) :
  (enable_ret hw p = 0 -> slept (enable_events hw p) = 111) /\
  0 <= slept (enable_events hw p) <= 111 /\
  (disable_ret hw p = 0 -> slept (disable_events hw p) = 122) /\
  1 <= slept (disable_events hw p) <= 122.
Proof.
  split; [|split; [|split]].
  - intros H. enable_cases hw p; try contradiction. reflexivity.
  - enable_cases hw p; vm_compute; split; discriminate.
  - intros H. disable_cases hw p; try contradiction. reflexivity.
  - disable_cases hw p; vm_compute; split; discriminate.
Qed.

Lemma sleep_totals_witness :
  enable_ret hw_ok panel_probed = 0 /\ slept (enable_events hw_ok panel_probed) = 111 /\
  disable_ret hw_ok panel_on = 0 /\ slept (disable_events hw_ok panel_on) = 122.
Proof.
  split; [reflexivity|]. split.
  - apply (proj1 (sleep_totals hw_ok panel_probed)). reflexivity.
  - split; [reflexivity|].
    apply (proj1 (proj2 (proj2 (sleep_totals hw_ok panel_on)))). reflexivity.
Defined.

(** X8: every register write of either function, in successful and in
    aborted calls alike, carries the data byte 0; [sharp_ls_enable] writes
    to no address but 0x11 and 0x29, [sharp_ls_disable] to none but 0x28
    and 0x10, and neither issues more than two writes. *)
Theorem register_writes_carry_no_data (hw : oracle) (p : panel_ls037v7dw06) :
  Forall (fun w => snd (fst w) = 0 /\ (fst (fst w) = 0x11 \/ fst (fst w) = 0x29))
         (i2c_writes (enable_events hw p)) /\
  Forall (fun w => snd (fst w) = 0 /\ (fst (fst w) = 0x28 \/ fst (fst w) = 0x10))
         (i2c_writes (disable_events hw p)) /\
  (length (i2c_writes (enable_events hw p)) <= 2)%nat /\
  (1 <= length (i2c_writes (disable_events hw p)) <= 2)%nat.
Proof.
  split; [|split; [|split]].
  - enable_cases hw p; simpl;
      repeat (apply Forall_cons;
              [split; [reflexivity | (left; reflexivity) || (right; reflexivity)]|]);
      apply Forall_nil.
  - disable_cases hw p; simpl;
      repeat (apply Forall_cons;
              [split; [reflexivity | (left; reflexivity) || (right; reflexivity)]|]);
      apply Forall_nil.
  - enable_cases hw p; simpl; lia.
  - disable_cases hw p; simpl; lia.
Qed.

(** X9: [sharp_ls_enable] releases the reset line only with the rail on:
    whatever the level at entry, RESB is high at exit when
    [regulator_enable] returned 0 and low when it failed, in which case the
    panel is left held in reset; the isolation line is low either way. *)
Theorem reset_released_only_with_rail_on (hw : oracle) (p : panel_ls037v7dw06) :
  (In (EvRegulatorEnable 0) (enable_events hw p) ->
   resb_gpio (enable_end hw p) = 1) /\
  (~ In (EvRegulatorEnable 0) (enable_events hw p) ->
   resb_gpio (enable_end hw p) = 0 /\
   answers (enable_events hw p) = [enable_ret hw p] /\
   enable_ret hw p <> 0) /\
  i2ciso_gpio (enable_end hw p) = 0.
Proof.
  enable_cases hw p; cbn [resb_gpio i2ciso_gpio];
    (split; [|split; [|reflexivity]]); intros H; try reflexivity.
  - simpl in H. destruct H as [H|[H|[H|[]]]]; try discriminate H.
    injection H as H. congruence.
  - repeat split. exact Hr.
  - exfalso. apply H. simpl. auto.
  - exfalso. apply H. simpl. auto.
  - exfalso. apply H. simpl. auto.
Qed.

Lemma reset_released_only_with_rail_on_witness :
  ~ In (EvRegulatorEnable 0) (enable_events hw_rail_dead panel_on) /\
  resb_gpio panel_on = 1 /\
  resb_gpio (enable_end hw_rail_dead panel_on) = 0.
Proof.
  assert (H : ~ In (EvRegulatorEnable 0) (enable_events hw_rail_dead panel_on)).
  { vm_compute. intros [E|[E|[E|[]]]]; discriminate E. }
  split; [exact H|]. split; [reflexivity|].
  exact (proj1 (proj1 (proj2
    (reset_released_only_with_rail_on hw_rail_dead panel_on)) H)).
Defined.

(** ** The blank bit and the backlight properties *)

Lemma blank_mask_testbit (n : Z) :
  0 <= n ->
  Z.testbit (to_uint (Z.lnot BL_CORE_FBBLANK)) n = negb (n =? 1) && (n <? 32).
Proof.
  intros Hn. unfold to_uint.
  rewrite <- Z.land_ones by lia.
  rewrite Z.land_spec, Z.lnot_spec by exact Hn.
  change BL_CORE_FBBLANK with (2 ^ 1).
  rewrite Z.pow2_bits_eqb by lia. rewrite (Z.eqb_sym 1 n).
  destruct (Z.ltb_spec n 32) as [Hlt|Hge].
  - rewrite Z.ones_spec_low by lia. reflexivity.
  - rewrite Z.ones_spec_high by lia. reflexivity.
Qed.

Lemma blank_flag_testbit (n : Z) :
  0 <= n -> Z.testbit BL_CORE_FBBLANK n = (n =? 1).
Proof.
  intros Hn. change BL_CORE_FBBLANK with (2 ^ 1).
  rewrite Z.pow2_bits_eqb by lia. apply Z.eqb_sym.
Qed.

Lemma uint_high_bits (st n : Z) :
  0 <= st < 2 ^ 32 -> 32 <= n -> Z.testbit st n = false.
Proof.
  intros Hst Hn. rewrite <- (Z.mod_small st (2 ^ 32)) by exact Hst.
  apply Z.mod_pow2_bits_high. lia.
Qed.

Lemma set_after_clear (st : Z) :
  0 <= st < 2 ^ 32 ->
  Z.lor (Z.land st (to_uint (Z.lnot BL_CORE_FBBLANK))) BL_CORE_FBBLANK
  = Z.lor st BL_CORE_FBBLANK.
Proof.
  intros Hst. apply Z.bits_inj'. intros n Hn.
  rewrite !Z.lor_spec, Z.land_spec, blank_mask_testbit, blank_flag_testbit by exact Hn.
  destruct (Z.eqb_spec n 1) as [E|E]; cbn [negb andb].
  - rewrite !orb_true_r. reflexivity.
  - destruct (Z.ltb_spec n 32) as [Hlt|Hge].
    + rewrite andb_true_r. reflexivity.
    + rewrite (uint_high_bits st n Hst Hge). reflexivity.
Qed.

Lemma clear_after_set (st : Z) :
  Z.land (Z.lor st BL_CORE_FBBLANK) (to_uint (Z.lnot BL_CORE_FBBLANK))
  = Z.land st (to_uint (Z.lnot BL_CORE_FBBLANK)).
Proof.
  apply Z.bits_inj'. intros n Hn.
  rewrite !Z.land_spec, Z.lor_spec, blank_mask_testbit, blank_flag_testbit by exact Hn.
  destruct (Z.eqb_spec n 1) as [E|E]; cbn [negb andb].
  - rewrite !andb_false_r. reflexivity.
  - rewrite orb_false_r. reflexivity.
Qed.

Lemma state_set_in_range (st : Z) :
  0 <= st < 2 ^ 32 -> 0 <= Z.lor st BL_CORE_FBBLANK < 2 ^ 32.
Proof.
  intros Hst.
  assert (E : Z.lor st BL_CORE_FBBLANK = (Z.lor st BL_CORE_FBBLANK) mod 2 ^ 32).
  { rewrite <- Z.land_ones by lia.
    rewrite Z.land_lor_distr_l, !Z.land_ones by lia.
    rewrite (Z.mod_small st) by exact Hst. reflexivity. }
  rewrite E. apply Z.mod_pos_bound. reflexivity.
Qed.

Lemma backlight_on_twice (b : backlight_properties) :
  backlight_on (backlight_on b) = backlight_on b.
Proof.
  unfold backlight_on. cbn [max_brightness state].
  rewrite <- Z.land_assoc, Z.land_diag. reflexivity.
Qed.

Lemma backlight_off_twice (b : backlight_properties) :
  backlight_off (backlight_off b) = backlight_off b.
Proof.
  unfold backlight_off. cbn [max_brightness state].
  rewrite <- Z.lor_assoc, Z.lor_diag. reflexivity.
Qed.

Lemma backlight_off_on (b : backlight_properties) :
  0 <= state b < 2 ^ 32 -> backlight_off (backlight_on b) = backlight_off b.
Proof.
  intros Hst. unfold backlight_off, backlight_on. cbn [max_brightness state].
  rewrite set_after_clear by exact Hst. reflexivity.
Qed.

(** X10: neither function changes a bit of [props.state] other than
    [BL_CORE_FBBLANK] (bit 1), provided the state is an [unsigned int] at
    entry: all the other flags of the backlight core are kept, in failing
    calls too. *)
Theorem only_blank_bit_changes (hw : oracle) (p : panel_ls037v7dw06) (n : Z) :
  0 <= state (backlight p) < 2 ^ 32 ->
  n <> 1 ->
  Z.testbit (state (backlight (enable_end hw p))) n = Z.testbit (state (backlight p)) n /\
  Z.testbit (state (backlight (disable_end hw p))) n = Z.testbit (state (backlight p)) n.
Proof.
  intros Hst Hn.
  destruct (Z.neg_nonneg_cases n) as [Hneg|Hpos].
  { rewrite !Z.testbit_neg_r by exact Hneg. split; reflexivity. }
  assert (Hoff : Z.testbit (state (backlight_off (backlight p))) n
                 = Z.testbit (state (backlight p)) n).
  { cbn [backlight_off state].
    rewrite Z.lor_spec, blank_flag_testbit by exact Hpos.
    destruct (Z.eqb_spec n 1); [contradiction | apply orb_false_r]. }
  split.
  - enable_cases hw p; cbn [backlight]; try reflexivity.
    cbn [backlight_on state].
    rewrite Z.land_spec, blank_mask_testbit by exact Hpos.
    destruct (Z.eqb_spec n 1); [contradiction|]. cbn [negb andb].
    destruct (Z.ltb_spec n 32) as [Hlt|Hge].
    + apply andb_true_r.
    + rewrite (uint_high_bits _ n Hst Hge). reflexivity.
  - disable_cases hw p; cbn [backlight]; exact Hoff.
Qed.

Lemma only_blank_bit_changes_witness :
  0 <= state (backlight panel_on) < 2 ^ 32 /\
  Z.testbit (state (backlight (disable_end hw_ok panel_on))) 0
  = Z.testbit (state (backlight panel_on)) 0.
Proof.
  assert (Hst : 0 <= state (backlight panel_on) < 2 ^ 32).
  { vm_compute. split; [discriminate | reflexivity]. }
  split; [exact Hst|].
  apply (only_blank_bit_changes hw_ok panel_on 0 Hst). lia.
Defined.

(** X11: both functions keep the backlight properties well formed, in
    every call: if at entry the brightness lies between 0 and
    [max_brightness] and the state is an [unsigned int], the same holds at
    exit; and [max_brightness] is never changed. *)
Theorem calls_keep_props_ok (hw : oracle) (p : panel_ls037v7dw06) :
  props_ok (backlight p) ->
  props_ok (backlight (enable_end hw p)) /\
  props_ok (backlight (disable_end hw p)) /\
  max_brightness (backlight (enable_end hw p)) = max_brightness (backlight p) /\
  max_brightness (backlight (disable_end hw p)) = max_brightness (backlight p).
Proof.
  intros [Hbr Hst].
  assert (Hon : props_ok (backlight_on (backlight p))).
  { split; cbn [backlight_on brightness max_brightness state]; [lia|].
    apply state_clear_in_range. lia. }
  assert (Hoff : props_ok (backlight_off (backlight p))).
  { split; cbn [backlight_off brightness max_brightness state]; [lia|].
    apply state_set_in_range. exact Hst. }
  split; [|split; [|split]].
  - enable_cases hw p; cbn [backlight]; auto; split; assumption.
  - disable_cases hw p; cbn [backlight]; exact Hoff.
  - enable_cases hw p; reflexivity.
  - disable_cases hw p; reflexivity.
Qed.

Lemma calls_keep_props_ok_witness :
  props_ok (backlight panel_probed) /\
  props_ok (backlight (enable_end hw_ok panel_probed)).
Proof.
  assert (Hok : props_ok (backlight panel_probed)).
  { vm_compute. repeat split; first [discriminate | reflexivity]. }
  split; [exact Hok|].
  exact (proj1 (calls_keep_props_ok hw_ok panel_probed Hok)).
Defined.

(** ** Calls in sequence *)

(** Naming the result of a call and the exit it took. *)
Ltac run_enable hw p r q R :=
  pose proof (sharp_ls_enable_run hw p) as R;
  destruct (sharp_ls_enable hw p) as [r q]; cbn [fst snd] in *.

Ltac run_disable hw p r q R :=
  pose proof (sharp_ls_disable_run hw p) as R;
  destruct (sharp_ls_disable hw p) as [r q]; cbn [fst snd] in *.

Ltac unfold_parts :=
  unfold enable_events, disable_events in *;
  unfold enable_ret, enable_end, disable_ret, disable_end in *.

(** X12: calling a function again after it succeeded changes nothing in
    what it leaves: a second successful [sharp_ls_enable] ends with the
    same flag, line levels and backlight properties as the first, and so
    does a second successful [sharp_ls_disable]; but the second call is no
    shortcut, it goes through all 14 (13) journal entries again. *)
Theorem repeated_call_same_end_state (hw1 hw2 : oracle) (p : panel_ls037v7dw06) :
  (enable_ret hw1 p = 0 ->
   enable_ret hw2 (enable_end hw1 p) = 0 ->
   enabled (enable_end hw2 (enable_end hw1 p)) = enabled (enable_end hw1 p) /\
   levels (enable_end hw2 (enable_end hw1 p)) = levels (enable_end hw1 p) /\
   backlight (enable_end hw2 (enable_end hw1 p)) = backlight (enable_end hw1 p) /\
   length (enable_events hw2 (enable_end hw1 p)) = 14%nat) /\
  (disable_ret hw1 p = 0 ->
   disable_ret hw2 (disable_end hw1 p) = 0 ->
   enabled (disable_end hw2 (disable_end hw1 p)) = enabled (disable_end hw1 p) /\
   levels (disable_end hw2 (disable_end hw1 p)) = levels (disable_end hw1 p) /\
   backlight (disable_end hw2 (disable_end hw1 p)) = backlight (disable_end hw1 p) /\
   length (disable_events hw2 (disable_end hw1 p)) = 13%nat).
Proof.
  unfold_parts. split.
  - run_enable hw1 p r1 p1 R1. intros H1. subst r1.
    run_enable hw2 p1 r2 p2 R2. intros H2. subst r2.
    inversion R1 as [r Hr|r Hr|r Hr|]; try contradiction. subst p1.
    inversion R2 as [r Hr|r Hr|r Hr|]; try contradiction. subst p2.
    rewrite emitted_app.
    cbn [enabled levels resb_gpio clk_gpio i2ciso_gpio backlight].
    rewrite backlight_on_twice. repeat split.
  - run_disable hw1 p r1 p1 R1. intros H1. subst r1.
    run_disable hw2 p1 r2 p2 R2. intros H2. subst r2.
    inversion R1 as [r Hr|r Hr|r Hr|]; try contradiction. subst p1.
    inversion R2 as [r Hr|r Hr|r Hr|]; try contradiction. subst p2.
    rewrite emitted_app.
    cbn [enabled levels resb_gpio clk_gpio i2ciso_gpio backlight].
    rewrite backlight_off_twice. repeat split.
Qed.

Lemma repeated_call_same_end_state_witness :
  enable_ret hw_ok panel_probed = 0 /\
  enable_ret hw_ok (enable_end hw_ok panel_probed) = 0 /\
  levels (enable_end hw_ok (enable_end hw_ok panel_probed))
  = levels (enable_end hw_ok panel_probed).
Proof.
  split; [reflexivity|]. split; [reflexivity|].
  apply (proj1 (repeated_call_same_end_state hw_ok hw_ok panel_probed));
    reflexivity.
Defined.

(** X13: a successful [sharp_ls_enable] followed by a successful
    [sharp_ls_disable] leaves all three lines low, as the probe requested
    them, and the backlight as [sharp_ls_disable] alone would have left it
    (for a state that is an [unsigned int]); the journal of the two calls
    is the one sequence followed by the other, with one
    [regulator_enable] and one [regulator_disable]. *)
Theorem enable_disable_cycle (hw1 hw2 : oracle) (p : panel_ls037v7dw06) :
  0 <= state (backlight p) < 2 ^ 32 ->
  enable_ret hw1 p = 0 ->
  disable_ret hw2 (enable_end hw1 p) = 0 ->
  levels (disable_end hw2 (enable_end hw1 p)) = (0, 0, 0) /\
  backlight (disable_end hw2 (enable_end hw1 p)) = backlight (disable_end hw2 p) /\
  emitted p (disable_end hw2 (enable_end hw1 p)) =
    enable_to_end (backlight p) ++ disable_to_rail (backlight_on (backlight p)) 0 /\
  length (filter is_regulator_enable
            (emitted p (disable_end hw2 (enable_end hw1 p)))) = 1%nat /\
  length (filter is_regulator_disable
            (emitted p (disable_end hw2 (enable_end hw1 p)))) = 1%nat.
Proof.
  intros Hst. unfold_parts.
  assert (Hoff : backlight (snd (sharp_ls_disable hw2 p)) = backlight_off (backlight p)).
  { destruct (sharp_ls_disable_run hw2 p); reflexivity. }
  rewrite Hoff. clear Hoff.
  run_enable hw1 p r1 p1 R1. intros H1. subst r1.
  run_disable hw2 p1 r2 p2 R2. intros H2. subst r2.
  inversion R1 as [r Hr|r Hr|r Hr|]; try contradiction. subst p1.
  inversion R2 as [r Hr|r Hr|r Hr|]; try contradiction. subst p2.
  cbn [journal backlight levels resb_gpio clk_gpio i2ciso_gpio].
  rewrite <- app_assoc, emitted_app.
  rewrite backlight_off_on by exact Hst.
  repeat split.
Qed.

Lemma enable_disable_cycle_witness :
  0 <= state (backlight panel_probed) < 2 ^ 32 /\
  enable_ret hw_ok panel_probed = 0 /\
  disable_ret hw_ok (enable_end hw_ok panel_probed) = 0 /\
  levels (disable_end hw_ok (enable_end hw_ok panel_probed)) = (0, 0, 0).
Proof.
  assert (Hst : 0 <= state (backlight panel_probed) < 2 ^ 32).
  { vm_compute. split; [discriminate | reflexivity]. }
  split; [exact Hst|]. split; [reflexivity|]. split; [reflexivity|].
  apply (enable_disable_cycle hw_ok hw_ok panel_probed Hst); reflexivity.
Defined.

(** ** Binding and unbinding *)

Lemma IS_ERR_range (ptr : Z) :
  IS_ERR ptr = true -> - MAX_ERRNO <= PTR_ERR ptr < 0.
Proof.
  unfold IS_ERR, PTR_ERR. intros H.
  apply andb_true_iff in H. destruct H as [Hlo Hhi].
  apply Z.leb_le in Hlo. apply Z.ltb_lt in Hhi. lia.
Qed.

Lemma resources_acquired_true (k : platform) :
  resources_acquired k = true ->
  i2c_check_functionality k = true /\ devm_kzalloc k = true /\
  IS_ERR (devm_regulator_get k) = false /\
  IS_ERR (devm_gpiod_get k RESB) = false /\
  IS_ERR (devm_gpiod_get k CLK) = false /\
  IS_ERR (devm_gpiod_get k I2CISO) = false /\
  backlight_node k <> NoDevice.
Proof.
  unfold resources_acquired. cbn [forallb]. intros H.
  repeat (apply andb_true_iff in H; destruct H as [H ?]).
  repeat match goal with
         | H : _ && _ = true |- _ =>
             apply andb_true_iff in H; destruct H
         end.
  repeat match goal with
         | H : negb _ = true |- _ => apply negb_true_iff in H
         end.
  repeat split; auto.
  intros E. rewrite E in *. discriminate.
Qed.

(** Once the resources are acquired, [sharp_ls_probe] is
    [sharp_ls_enable] on a fresh panel. *)
Lemma sharp_ls_probe_acquired (hw : oracle) (k : platform) (c : i2c_client)
    (i2c_id : option i2c_device_id) (b : backlight_properties) :
  resources_acquired k = true ->
  backlight_node k = Found b ->
  exists dd : Z,
    sharp_ls_probe hw k c i2c_id =
    Probed (enable_ret hw (mk_panel false 0 0 0 b []))
           (mk_i2c_client
              (Some (mk_panel_data (enable_end hw (mk_panel false 0 0 0 b [])) dd))
              (dmesg c ++ if enable_ret hw (mk_panel false 0 0 0 b []) =? 0
                          then [dev_info driver_initialized] else [])).
Proof.
  intros Hacq Hbl.
  destruct (resources_acquired_true k Hacq) as (Hf & Ha & Hreg & Hresb & Hclk & Hiso & _).
  unfold sharp_ls_probe, enable_ret, enable_end.
  rewrite Hf, Ha, Hreg, Hresb, Hclk, Hiso, Hbl. cbn [negb].
  destruct (sharp_ls_enable hw (mk_panel false 0 0 0 b [])) as [err q].
  cbn [fst snd]. eexists.
  destruct (err =? 0); unfold printk; cbn [clientdata dmesg].
  - reflexivity.
  - rewrite app_nil_r. reflexivity.
Qed.

(** No exit of [sharp_ls_probe] before [sharp_ls_enable] returns 0. *)
Lemma sharp_ls_probe_zero_acquired (hw : oracle) (k : platform) (c c' : i2c_client)
    (i2c_id : option i2c_device_id) :
  sharp_ls_probe hw k c i2c_id = Probed 0 c' -> resources_acquired k = true.
Proof.
  unfold sharp_ls_probe, resources_acquired. cbn [forallb]. intros H.
  destruct (i2c_check_functionality k); cbn [negb andb] in *;
    [|injection H as E _; vm_compute in E; discriminate E].
  destruct (devm_kzalloc k); cbn [negb andb] in *;
    [|injection H as E _; vm_compute in E; discriminate E].
  destruct (IS_ERR (devm_regulator_get k)) eqn:Hreg; cbn [negb andb] in *;
    [injection H as E _; apply IS_ERR_range in Hreg; lia|].
  destruct (IS_ERR (devm_gpiod_get k RESB)) eqn:Hresb; cbn [negb andb] in *;
    [injection H as E _; apply IS_ERR_range in Hresb; lia|].
  destruct (IS_ERR (devm_gpiod_get k CLK)) eqn:Hclk; cbn [negb andb] in *;
    [injection H as E _; apply IS_ERR_range in Hclk; lia|].
  destruct (IS_ERR (devm_gpiod_get k I2CISO)) eqn:Hiso; cbn [negb andb] in *;
    [injection H as E _; apply IS_ERR_range in Hiso; lia|].
  destruct (backlight_node k); try reflexivity.
  injection H as E _. vm_compute in E. discriminate E.
Qed.

(** The client that a [sharp_ls_probe] returning 0 leaves. *)
Lemma sharp_ls_probe_zero (hw : oracle) (k : platform) (c c' : i2c_client)
    (i2c_id : option i2c_device_id) :
  sharp_ls_probe hw k c i2c_id = Probed 0 c' ->
  exists (b : backlight_properties) (dd : Z),
    backlight_node k = Found b /\
    c' = mk_i2c_client
           (Some (mk_panel_data
                    (mk_panel true 1 1 0 (backlight_on b) (enable_to_end b)) dd))
           (dmesg c ++ [dev_info driver_initialized]).
Proof.
  intros Hprobe.
  pose proof (sharp_ls_probe_zero_acquired hw k c c' i2c_id Hprobe) as Hacq.
  destruct (resources_acquired_true k Hacq)
    as (Hf & Ha & Hreg & Hresb & Hclk & Hiso & Hno).
  destruct (backlight_node k) as [| |b] eqn:Hbl.
  - unfold sharp_ls_probe in Hprobe.
    rewrite Hf, Ha, Hreg, Hresb, Hclk, Hiso, Hbl in Hprobe.
    discriminate Hprobe.
  - contradiction.
  - destruct (sharp_ls_probe_acquired hw k c i2c_id b Hacq Hbl) as [dd Hrun].
    rewrite Hrun in Hprobe. injection Hprobe as Hret Hc'. subst c'.
    unfold enable_ret, enable_end in *.
    run_enable hw (mk_panel false 0 0 0 b []) r q R. subst r.
    inversion R as [r Hr|r Hr|r Hr|]; try contradiction. subst q.
    exists b, dd. split; reflexivity.
Qed.



(** X15: if [sharp_ls_probe] returns 0, every resource was acquired and the
    panel it left as client data is on: flag set, RESB and CLK high, I2CISO
    low, backlight unblanked at maximum brightness, the journal that of one
    full [sharp_ls_enable] on lines that started low; and the last line
    logged is "Driver Initialized.". *)
Theorem probe_success (hw : oracle) (k : platform) (c c' : i2c_client)
    (i2c_id : option i2c_device_id) :
  sharp_ls_probe hw k c i2c_id = Probed 0 c' ->
  exists (b : backlight_properties) (d : panel_data),
    resources_acquired k = true /\
    backlight_node k = Found b /\
    clientdata c' = Some d /\
    enabled (panel d) = true /\
    levels (panel d) = (1, 1, 0) /\
    backlight (panel d) = backlight_on b /\
    journal (panel d) = enable_to_end b /\
    dmesg c' = dmesg c ++ [dev_info driver_initialized].
Proof.
  intros Hprobe.
  pose proof (sharp_ls_probe_zero_acquired hw k c c' i2c_id Hprobe) as Hacq.
  destruct (backlight_node k) as [| |b] eqn:Hbl.
  - destruct (resources_acquired_true k Hacq)
      as (Hf & Ha & Hreg & Hresb & Hclk & Hiso & _).
    unfold sharp_ls_probe in Hprobe.
    rewrite Hf, Ha, Hreg, Hresb, Hclk, Hiso, Hbl in Hprobe.
    discriminate Hprobe.
  - destruct (resources_acquired_true k Hacq) as (_ & _ & _ & _ & _ & _ & Hno).
    contradiction.
  - destruct (sharp_ls_probe_acquired hw k c i2c_id b Hacq Hbl) as [dd Hrun].
    rewrite Hrun in Hprobe. injection Hprobe as Hret Hc'. subst c'.
    unfold enable_ret, enable_end in *.
    run_enable hw (mk_panel false 0 0 0 b []) r q R. subst r.
    inversion R as [r Hr|r Hr|r Hr|]; try contradiction. subst q.
    exists b. eexists. split; [exact Hacq|]. repeat split.
Qed.

Lemma probe_success_witness :
  sharp_ls_probe hw_ok platform_ok client_unbound None
  = Probed 0 (mk_i2c_client (Some (mk_panel_data panel_on 0))
                            [dev_info driver_initialized]) /\
  resources_acquired platform_ok = true.
Proof.
  assert (H : sharp_ls_probe hw_ok platform_ok client_unbound None
              = Probed 0 (mk_i2c_client (Some (mk_panel_data panel_on 0))
                                        [dev_info driver_initialized])).
  { vm_compute. reflexivity. }
  split; [exact H|].
  destruct (probe_success hw_ok platform_ok client_unbound _ None H)
    as (b & d & Hacq & _).
  exact Hacq.
Defined.



(** X17: [sharp_ls_remove] on a client whose probe returned 0 finds its
    client data and returns what [sharp_ls_disable] returns.  Whatever that
    is, the backlight is then powered down and blanked at brightness zero,
    the clock and isolation lines are low, the flag is still set and
    [driver_data] is kept; "Driver Unloaded." is logged exactly when the
    code is 0, and then all three lines are low. *)
Theorem remove_after_probe (hw1 hw2 : oracle) (k : platform) (c c1 : i2c_client)
    (i2c_id : option i2c_device_id) :
  sharp_ls_probe hw1 k c i2c_id = Probed 0 c1 ->
  exists (err : Z) (c2 : i2c_client) (d1 d2 : panel_data),
    clientdata c1 = Some d1 /\
    sharp_ls_remove hw2 c1 = Some (err, c2) /\
    err = disable_ret hw2 (panel d1) /\
    clientdata c2 = Some d2 /\
    driver_data d2 = driver_data d1 /\
    enabled (panel d2) = true /\
    clk_gpio (panel d2) = 0 /\
    i2ciso_gpio (panel d2) = 0 /\
    power (backlight (panel d2)) = FB_BLANK_POWERDOWN /\
    blank_flag (state (backlight (panel d2))) = true /\
    brightness (backlight (panel d2)) = 0 /\
    dmesg c2 = dmesg c1 ++ (if err =? 0 then [dev_info driver_unloaded] else []) /\
    (err = 0 -> levels (panel d2) = (0, 0, 0)).
Proof.
  intros Hprobe.
  destruct (sharp_ls_probe_zero hw1 k c c1 i2c_id Hprobe) as (b & dd & _ & Hc1).
  subst c1. unfold sharp_ls_remove, disable_ret. cbn [clientdata panel driver_data dmesg].
  set (p1 := mk_panel true 1 1 0 (backlight_on b) (enable_to_end b)).
  pose proof (sharp_ls_disable_run hw2 p1) as R.
  destruct (sharp_ls_disable hw2 p1) as [err p2] eqn:Hd. cbn [fst snd] in R.
  exists err. eexists. exists (mk_panel_data p1 dd), (mk_panel_data p2 dd).
  split; [reflexivity|]. split; [reflexivity|].
  split; [cbn [panel]; rewrite Hd; reflexivity|].
  assert (Hlog : dmesg (if err =? 0
                        then printk (dev_info driver_unloaded)
                               (mk_i2c_client (Some (mk_panel_data p2 dd))
                                  (dmesg c ++ [dev_info driver_initialized]))
                        else mk_i2c_client (Some (mk_panel_data p2 dd))
                               (dmesg c ++ [dev_info driver_initialized]))
                 = (dmesg c ++ [dev_info driver_initialized]) ++
                   (if err =? 0 then [dev_info driver_unloaded] else [])).
  { destruct (err =? 0); cbn [printk dmesg]; [reflexivity | now rewrite app_nil_r]. }
  assert (Hcd : clientdata (if err =? 0
                        then printk (dev_info driver_unloaded)
                               (mk_i2c_client (Some (mk_panel_data p2 dd))
                                  (dmesg c ++ [dev_info driver_initialized]))
                        else mk_i2c_client (Some (mk_panel_data p2 dd))
                               (dmesg c ++ [dev_info driver_initialized]))
                = Some (mk_panel_data p2 dd)).
  { destruct (err =? 0); reflexivity. }
  split; [exact Hcd|]. cbn [panel driver_data].
  split; [reflexivity|].
  inversion R as [r Hr|r Hr|r Hr|]; subst;
    cbn [enabled clk_gpio i2ciso_gpio backlight backlight_off power state
         brightness levels resb_gpio p1];
    repeat split; auto using blank_flag_set; intros E; congruence.
Qed.

Lemma remove_after_probe_witness :
  sharp_ls_probe hw_ok platform_ok client_unbound None
  = Probed 0 (mk_i2c_client (Some (mk_panel_data panel_on 0))
                            [dev_info driver_initialized]) /\
  exists (err : Z) (c2 : i2c_client),
    sharp_ls_remove (hw_nak 0x28)
      (mk_i2c_client (Some (mk_panel_data panel_on 0)) [dev_info driver_initialized])
    = Some (err, c2).
Proof.
  assert (H : sharp_ls_probe hw_ok platform_ok client_unbound None
              = Probed 0 (mk_i2c_client (Some (mk_panel_data panel_on 0))
                                        [dev_info driver_initialized])).
  { vm_compute. reflexivity. }
  split; [exact H|].
  destruct (remove_after_probe hw_ok (hw_nak 0x28) platform_ok client_unbound _ None H)
    as (err & c2 & d1 & d2 & _ & Hrem & _).
  exists err, c2. exact Hrem.
Defined.

(** X18: a whole cycle, [sharp_ls_probe] returning 0 and then
    [sharp_ls_remove] returning 0, leaves the three lines low as they were
    requested, with a journal that is the enable sequence followed by the
    disable sequence, and adds to the log "Driver Initialized." and then
    "Driver Unloaded.". *)
Theorem probe_remove_cycle (hw1 hw2 : oracle) (k : platform) (c c1 c2 : i2c_client)
    (i2c_id : option i2c_device_id) :
  sharp_ls_probe hw1 k c i2c_id = Probed 0 c1 ->
  sharp_ls_remove hw2 c1 = Some (0, c2) ->
  exists (b : backlight_properties) (d : panel_data),
    backlight_node k = Found b /\
    clientdata c2 = Some d /\
    levels (panel d) = (0, 0, 0) /\
    journal (panel d) = enable_to_end b ++ disable_to_rail (backlight_on b) 0 /\
    dmesg c2 = dmesg c ++ [dev_info driver_initialized; dev_info driver_unloaded].
Proof.
  intros Hprobe Hremove.
  destruct (sharp_ls_probe_zero hw1 k c c1 i2c_id Hprobe) as (b & dd & Hbl & Hc1).
  subst c1. unfold sharp_ls_remove in Hremove.
  cbn [clientdata panel driver_data dmesg] in Hremove.
  run_disable hw2 (mk_panel true 1 1 0 (backlight_on b) (enable_to_end b)) err p2 R.
  injection Hremove as Herr Hc2. subst err. cbn [Z.eqb] in Hc2. subst c2.
  inversion R as [r Hr|r Hr|r Hr|]; try contradiction. subst p2.
  exists b. eexists. split; [exact Hbl|].
  cbn [printk clientdata dmesg panel levels journal resb_gpio clk_gpio i2ciso_gpio].
  rewrite <- app_assoc. repeat split.
Qed.

Lemma probe_remove_cycle_witness :
  sharp_ls_probe hw_ok platform_ok client_unbound None
  = Probed 0 (mk_i2c_client (Some (mk_panel_data panel_on 0))
                            [dev_info driver_initialized]) /\
  exists c2 : i2c_client,
    sharp_ls_remove hw_ok
      (mk_i2c_client (Some (mk_panel_data panel_on 0)) [dev_info driver_initialized])
    = Some (0, c2) /\
    dmesg c2 = [dev_info driver_initialized; dev_info driver_unloaded].
Proof.
  assert (H1 : sharp_ls_probe hw_ok platform_ok client_unbound None
               = Probed 0 (mk_i2c_client (Some (mk_panel_data panel_on 0))
                                         [dev_info driver_initialized])).
  { vm_compute. reflexivity. }
  split; [exact H1|].
  eexists. split.
  - vm_compute. reflexivity.
  - destruct (probe_remove_cycle hw_ok hw_ok platform_ok client_unbound _ _ None H1 eq_refl)
      as (b & d & _ & _ & _ & _ & Hlog).
    exact Hlog.
Defined.
